(** * Smart Research Assistant: the interaction logic of [App.js]

    A shallow embedding of the state-management logic of the single React
    component [App] (src/smart-research-frontend/src/App.js): the seven
    [useState] hooks, the two simulated asynchronous operations
    [uploadFile] and [askQuestion], the three drag-and-drop handlers and
    the wiring of the handlers to DOM events made by the JSX.

    Layout: JavaScript strings, the hook state and its setters, the
    effect monad in which the [async] functions are written, the handlers,
    the event dispatch of the rendered tree and the event loop; then the
    notions the theorems are stated with; then the lemmas and theorems. *)

From Stdlib Require Import List NArith Bool Lia String Ascii.
Import ListNotations.

(* ================================================================== *)
(** ** JavaScript strings *)
(* ================================================================== *)

(** A JavaScript string is a finite sequence of UTF-16 code units.  The
    code compares strings with [===], concatenates them in template
    literals and trims them; all three act on code units, so a string is a
    list of code units here.  *)
Module JsString.

Definition t : Type := list N.

(** An ASCII literal of the source text. *)
Definition lit (s : string) : t := map N_of_ascii (list_ascii_of_string s).

(** [a === b] on strings: same sequence of code units. *)
Fixpoint eqb (a b : t) : bool :=
  match a, b with
  | [], [] => true
  | x :: a', y :: b' => N.eqb x y && eqb a' b'
  | _, _ => false
  end.

(** ECMAScript [WhiteSpace] and [LineTerminator] code points, the set
    that [String.prototype.trim] strips (all of them are in the BMP). *)
Definition isWhiteSpace (c : N) : bool :=
  (N.eqb c 9 || N.eqb c 10 || N.eqb c 11 || N.eqb c 12 || N.eqb c 13
   || N.eqb c 32 || N.eqb c 160 || N.eqb c 5760
   || (N.leb 8192 c && N.leb c 8202)
   || N.eqb c 8232 || N.eqb c 8233 || N.eqb c 8239 || N.eqb c 8287
   || N.eqb c 12288 || N.eqb c 65279)%bool.

Fixpoint trimStart (s : t) : t :=
  match s with
  | [] => []
  | c :: s' => if isWhiteSpace c then trimStart s' else s
  end.

Definition trimEnd (s : t) : t := rev (trimStart (rev s)).

(** [s.trim()] *)
Definition trim (s : t) : t := trimEnd (trimStart s).

(** ToBoolean on a string: the empty string is the only falsy one. *)
Definition truthy (s : t) : bool :=
  match s with [] => false | _ :: _ => true end.

Fixpoint startsWith (p s : t) : bool :=
  match p, s with
  | [], _ => true
  | x :: p', y :: s' => N.eqb x y && startsWith p' s'
  | _ :: _, [] => false
  end.

(** [s.includes(sub)]: [sub] occurs in [s] as a contiguous run. *)
Fixpoint includes (sub s : t) : bool :=
  startsWith sub s ||
  match s with
  | [] => false
  | _ :: s' => includes sub s'
  end.

(** Every code unit of [s] is white space. *)
Definition blank (s : t) : bool := forallb isWhiteSpace s.

End JsString.

Definition jsstring : Type := JsString.t.

(* ================================================================== *)
(** ** The hook state *)
(* ================================================================== *)

(** The part of a DOM [File] the component reads: [file.name] and
    [droppedFile.type]. *)
Module File.
Record t : Type := mk { name : jsstring; type : jsstring }.
End File.

(** The object stored by [setUploadStatus]: [{ type, message }] with
    [type] one of the two literals ['success'] and ['error']. *)
Module UploadStatus.
Inductive kind : Type := success | error.
Record t : Type := mk { type : kind; message : jsstring }.
End UploadStatus.

(** The seven [useState] cells of [App], lines 5-11.  [null] and
    [undefined] are both the absent value [None]: the code only ever
    tests them for truthiness. *)
Record State : Type := mkState {
  file : option File.t;
  question : jsstring;
  report : jsstring;
  isUploading : bool;
  isAsking : bool;
  uploadStatus : option UploadStatus.t;
  isDragging : bool
}.

(** [useState(null)], [useState("")], [useState(false)] ... *)
Definition initialState : State :=
  {| file := None; question := []; report := [];
     isUploading := false; isAsking := false;
     uploadStatus := None; isDragging := false |}.

(** A call of one of the seven setters with its argument. *)
Inductive Action : Type :=
| setFile (v : option File.t)
| setQuestion (v : jsstring)
| setReport (v : jsstring)
| setIsUploading (v : bool)
| setIsAsking (v : bool)
| setUploadStatus (v : option UploadStatus.t)
| setIsDragging (v : bool).

(** The effect of a setter call on the cells: the named cell is
    overwritten, the other six are kept. *)
Definition apply (a : Action) (s : State) : State :=
  match a with
  | setFile v =>
      {| file := v; question := question s; report := report s;
         isUploading := isUploading s; isAsking := isAsking s;
         uploadStatus := uploadStatus s; isDragging := isDragging s |}
  | setQuestion v =>
      {| file := file s; question := v; report := report s;
         isUploading := isUploading s; isAsking := isAsking s;
         uploadStatus := uploadStatus s; isDragging := isDragging s |}
  | setReport v =>
      {| file := file s; question := question s; report := v;
         isUploading := isUploading s; isAsking := isAsking s;
         uploadStatus := uploadStatus s; isDragging := isDragging s |}
  | setIsUploading v =>
      {| file := file s; question := question s; report := report s;
         isUploading := v; isAsking := isAsking s;
         uploadStatus := uploadStatus s; isDragging := isDragging s |}
  | setIsAsking v =>
      {| file := file s; question := question s; report := report s;
         isUploading := isUploading s; isAsking := v;
         uploadStatus := uploadStatus s; isDragging := isDragging s |}
  | setUploadStatus v =>
      {| file := file s; question := question s; report := report s;
         isUploading := isUploading s; isAsking := isAsking s;
         uploadStatus := v; isDragging := isDragging s |}
  | setIsDragging v =>
      {| file := file s; question := question s; report := report s;
         isUploading := isUploading s; isAsking := isAsking s;
         uploadStatus := uploadStatus s; isDragging := v |}
  end.

(* ================================================================== *)
(** ** The effect monad of the handlers *)
(* ================================================================== *)

(** What a handler does, in program order: setter calls, and the points
    where an [async] function is suspended on a timer ([await] of a
    promise resolved by [setTimeout(resolve, ms)]). *)
Inductive Effect : Type :=
| Call (a : Action)
| Await (ms : N).

(** The value thrown by a failing [await] and bound by [catch (error)]. *)
Definition Exn : Type := jsstring.

(** A handler computes from the values its closure captured at render
    time; its setter calls do not read the cells.  So a computation is the
    sequence of its effects together with its completion: a value, or a
    thrown exception. *)
Definition M (A : Type) : Type := (list Effect * (Exn + A))%type.

Definition ret {A} (x : A) : M A := ([], inr x).

Definition throw {A} (e : Exn) : M A := ([], inl e).

Definition bind {A B} (m : M A) (k : A -> M B) : M B :=
  match m with
  | (es, inl e) => (es, inl e)
  | (es, inr x) => let (es', r) := k x in (es ++ es', r)
  end.

Notation "m ;; k" := (bind m (fun _ => k))
  (at level 61, right associativity).

Definition call (a : Action) : M unit := ([Call a], inr tt).

(** A promise, as far as [await] sees it: how long until it settles, and
    whether it is then fulfilled or rejected. *)
Inductive Settlement : Type :=
| Fulfilled
| Rejected (reason : Exn).

Record Promise : Type := mkPromise { after : N; settles : Settlement }.

(** [new Promise(resolve => setTimeout(resolve, ms))]: the executor never
    calls the reject function and does not throw; the timer calls
    [resolve] after [ms] milliseconds. *)
Definition timeoutPromise (ms : N) : Promise :=
  {| after := ms; settles := Fulfilled |}.

(** [await p]: suspend until [p] settles, then continue, or throw the
    rejection reason. *)
Definition await (p : Promise) : M unit :=
  ([Await (after p)],
   match settles p with
   | Fulfilled => inr tt
   | Rejected e => inl e
   end).

(** [try { body } catch (error) { handler } finally { final }] *)
Definition tryCatchFinally (body : M unit) (handler : Exn -> M unit)
    (final : M unit) : M unit :=
  let caught :=
    match body with
    | (es, inr x) => (es, inr x)
    | (es, inl e) => let (es', r) := handler e in (es ++ es', r)
    end in
  match caught with
  | (es, r) =>
      match final with
      | (fs, inr _) => (es ++ fs, r)
      | (fs, inl e') => (es ++ fs, inl e')
      end
  end.

Definition effects {A} (m : M A) : list Effect := fst m.

Definition completion {A} (m : M A) : Exn + A := snd m.

(* ================================================================== *)
(** ** The handlers of [App] *)
(* ================================================================== *)

Definition uploadedMessage (f : File.t) : jsstring :=
  (JsString.lit "PDF uploaded: " ++ File.name f)%list.

Definition uploadFailedMessage : jsstring :=
  JsString.lit "Upload failed. Please try again.".

(** The three blocks of the [try] statement of [uploadFile], lines
    19-27. *)
Definition uploadTry (f : File.t) : M unit :=
  await (timeoutPromise 2000) ;;
  call (setUploadStatus
          (Some (UploadStatus.mk UploadStatus.success (uploadedMessage f)))).

Definition uploadCatch (_ : Exn) : M unit :=
  call (setUploadStatus
          (Some (UploadStatus.mk UploadStatus.error uploadFailedMessage))).

Definition uploadFinally : M unit := call (setIsUploading false).

(** [uploadFile], lines 14-28.  The closure reads [file] of the render
    in which it was created. *)
Definition uploadFile (s : State) : M unit :=
  match file s with
  | None => ret tt
  | Some f =>
      call (setIsUploading true) ;;
      call (setUploadStatus None) ;;
      tryCatchFinally (uploadTry f) uploadCatch uploadFinally
  end.

(** The template literal of line 37 with [question] spliced in.  The
    double quote, the line feed and the bullet U+2022 are written as
    code units. *)
Definition dquote : jsstring := [34%N].
Definition lf : jsstring := [10%N].
Definition bullet : jsstring := [8226%N].

Definition reportHead : jsstring :=
  (JsString.lit "Based on the uploaded document, here's what I found regarding "
   ++ dquote)%list.

Definition reportTail : jsstring :=
  (dquote ++ JsString.lit ":" ++ lf ++ lf
   ++ JsString.lit "This is a simulated response that would contain detailed analysis from your PDF. The actual implementation would process the document and provide relevant insights based on your question."
   ++ lf ++ lf
   ++ JsString.lit "Key findings:" ++ lf
   ++ bullet ++ JsString.lit " Point 1: Relevant information extracted" ++ lf
   ++ bullet ++ JsString.lit " Point 2: Additional context provided" ++ lf
   ++ bullet ++ JsString.lit " Point 3: Summary of findings" ++ lf ++ lf
   ++ JsString.lit "This response demonstrates the enhanced UI with smooth animations and premium styling.")%list.

Definition reportFor (q : jsstring) : jsstring :=
  (reportHead ++ q ++ reportTail)%list.

Definition askFailedMessage : jsstring :=
  JsString.lit "Error processing your question. Please try again.".

(** The three blocks of the [try] statement of [askQuestion], lines
    34-42. *)
Definition askTry (q : jsstring) : M unit :=
  await (timeoutPromise 3000) ;;
  call (setReport (reportFor q)).

Definition askCatch (_ : Exn) : M unit := call (setReport askFailedMessage).

Definition askFinally : M unit := call (setIsAsking false).

(** [askQuestion], lines 30-43.  The closure reads [question] of the
    render in which it was created. *)
Definition askQuestion (s : State) : M unit :=
  if negb (JsString.truthy (JsString.trim (question s))) then ret tt
  else
    call (setIsAsking true) ;;
    tryCatchFinally (askTry (question s)) askCatch askFinally.

(** [handleDragOver], [handleDragLeave], lines 45-53.
    [e.preventDefault()] touches no cell. *)
Definition handleDragOver : M unit := call (setIsDragging true).

Definition handleDragLeave : M unit := call (setIsDragging false).

Definition pdfType : jsstring := JsString.lit "application/pdf".

(** [handleDrop], lines 55-62; [files] is [e.dataTransfer.files], and
    [files[0]] of an empty list is [undefined]. *)
Definition handleDrop (files : list File.t) : M unit :=
  call (setIsDragging false) ;;
  let droppedFile := hd_error files in
  match droppedFile with
  | Some f =>
      if JsString.eqb (File.type f) pdfType
      then call (setFile droppedFile)
      else ret tt
  | None => ret tt
  end.

(* ================================================================== *)
(** ** The events of the rendered tree *)
(* ================================================================== *)

(** The DOM events that reach the five interactive elements of the JSX
    (lines 209-225, 243-246, 291-302), with the part of the event object
    a handler reads. *)
Inductive Event : Type :=
| DragEnter                          (* drop zone [div] *)
| DragOver
| DragLeave
| Drop (files : list File.t)         (* e.dataTransfer.files *)
| FileChange (files : list File.t)   (* file [input]: e.target.files *)
| UploadClick                        (* upload [button] *)
| QuestionChange (value : jsstring)  (* text [input]: e.target.value *)
| QuestionKeyPress (key : jsstring)  (* text [input]: e.key *)
| AskClick.                          (* ask [button] *)

(** The handler the JSX attaches for each event, run in the closure of
    the render that has the cells [s].  The drop zone has [onDragOver],
    [onDragLeave] and [onDrop] and nothing else. *)
Definition handle (s : State) (e : Event) : M unit :=
  match e with
  | DragEnter => ret tt
  | DragOver => handleDragOver
  | DragLeave => handleDragLeave
  | Drop files => handleDrop files
  | FileChange files => call (setFile (hd_error files))
  | UploadClick => uploadFile s
  | QuestionChange value => call (setQuestion value)
  | QuestionKeyPress key =>
      if JsString.eqb key (JsString.lit "Enter") then askQuestion s
      else ret tt
  | AskClick => askQuestion s
  end.

(** The [disabled] attribute of the element an event is aimed at; a
    disabled control receives no event. *)
Definition disabled (s : State) (e : Event) : bool :=
  match e with
  | DragEnter | DragOver | DragLeave | Drop _ => false
  | FileChange _ => isUploading s
  | UploadClick =>
      match file s with None => true | Some _ => false end || isUploading s
  | QuestionChange _ | QuestionKeyPress _ => isAsking s
  | AskClick =>
      negb (JsString.truthy (JsString.trim (question s))) || isAsking s
  end.

(* ================================================================== *)
(** ** Running the effects *)
(* ================================================================== *)

(** The setter calls of [es] applied in order, the waits passed over:
    the cells once the handler has run to its end undisturbed. *)
Fixpoint run (es : list Effect) (s : State) : State :=
  match es with
  | [] => s
  | Call a :: es' => run es' (apply a s)
  | Await _ :: es' => run es' s
  end.

(** The synchronous part: the setter calls up to the first [await], and
    what is left to do when its timer fires. *)
Fixpoint runSync (es : list Effect) (s : State)
  : State * option (N * list Effect) :=
  match es with
  | [] => (s, None)
  | Call a :: es' => runSync es' (apply a s)
  | Await ms :: es' => (s, Some (ms, es'))
  end.

(** A suspended [async] function: its delay and its continuation. *)
Record Timer : Type := mkTimer { delay : N; resume : list Effect }.

(** The screen at rest between two tasks of the event loop: the cells
    and the timers that have not fired yet. *)
Record Runtime : Type := mkRuntime { hooks : State; timers : list Timer }.

Definition initialRuntime : Runtime :=
  {| hooks := initialState; timers := [] |}.

(** Run [es] on the cells until it suspends or ends. *)
Definition launch (es : list Effect) (r : Runtime) : Runtime :=
  match runSync es (hooks r) with
  | (s', None) => {| hooks := s'; timers := timers r |}
  | (s', Some (ms, k)) =>
      {| hooks := s'; timers := (timers r ++ [mkTimer ms k])%list |}
  end.

Inductive Label : Type :=
| Fire (e : Event)
| Expire (t : Timer).

(** One task of the event loop: an event of an enabled element runs its
    handler, or a pending timer fires and its function resumes. *)
Inductive step : Runtime -> Label -> Runtime -> Prop :=
| step_fire : forall r e,
    disabled (hooks r) e = false ->
    step r (Fire e) (launch (effects (handle (hooks r) e)) r)
| step_expire : forall r t pre post,
    timers r = (pre ++ t :: post)%list ->
    step r (Expire t)
         (launch (resume t) {| hooks := hooks r; timers := (pre ++ post)%list |}).

Inductive reachable : Runtime -> Prop :=
| reach_init : reachable initialRuntime
| reach_step : forall r l r', reachable r -> step r l r' -> reachable r'.

(** The same two moves as a function, the firing timer named by its
    position in the list. *)
Inductive Task : Type :=
| Occur (e : Event)
| Elapse (n : nat).

Definition perform (r : Runtime) (k : Task) : option Runtime :=
  match k with
  | Occur e =>
      if disabled (hooks r) e then None
      else Some (launch (effects (handle (hooks r) e)) r)
  | Elapse n =>
      match nth_error (timers r) n with
      | Some t =>
          Some (launch (resume t)
                  {| hooks := hooks r;
                     timers := (firstn n (timers r)
                                ++ skipn (S n) (timers r))%list |})
      | None => None
      end
  end.

Fixpoint performAll (r : Runtime) (ks : list Task) : option Runtime :=
  match ks with
  | [] => Some r
  | k :: ks' =>
      match perform r k with
      | Some r' => performAll r' ks'
      | None => None
      end
  end.

(* ================================================================== *)
(** ** Notions the theorems are stated with *)
(* ================================================================== *)

(** The outcome object a finished upload of [f] stores. *)
Definition uploaded (f : File.t) : UploadStatus.t :=
  UploadStatus.mk UploadStatus.success (uploadedMessage f).

(** What is left of [uploadFile] and of [askQuestion] once their timer
    has fired. *)
Definition uploadResume (f : File.t) : list Effect :=
  [Call (setUploadStatus (Some (uploaded f))); Call (setIsUploading false)].

Definition askResume (q : jsstring) : list Effect :=
  [Call (setReport (reportFor q)); Call (setIsAsking false)].

(** The only timers the screen ever has pending are the continuation of
    an upload and the continuation of a query. *)
Inductive pending : Timer -> Prop :=
| pending_upload : forall f, pending (mkTimer 2000 (uploadResume f))
| pending_ask : forall q, pending (mkTimer 3000 (askResume q)).

Definition isUploadTimer (t : Timer) : bool :=
  match resume t with
  | Call (setUploadStatus _) :: _ => true
  | _ => false
  end.

Definition isAskTimer (t : Timer) : bool :=
  match resume t with
  | Call (setReport _) :: _ => true
  | _ => false
  end.

Definition count (p : Timer -> bool) (ts : list Timer) : nat :=
  List.length (filter p ts).

(** The two error displays of the JSX: the status banner in its failure
    colours (lines 262-277: [uploadStatus] present with a [type] other
    than ['success']), and the failure text of line 39 in the report
    panel. *)
Definition uploadFailureShown (s : State) : bool :=
  match uploadStatus s with
  | Some u =>
      match UploadStatus.type u with
      | UploadStatus.success => false
      | UploadStatus.error => true
      end
  | None => false
  end.

Definition queryFailureShown (s : State) : bool :=
  JsString.eqb (report s) askFailedMessage.

Definition flag (b : bool) : nat := if b then 1 else 0.

Record Inv (r : Runtime) : Prop := mkInv {
  inv_pending : Forall pending (timers r);
  inv_uploading : count isUploadTimer (timers r) = flag (isUploading (hooks r));
  inv_asking : count isAskTimer (timers r) = flag (isAsking (hooks r));
  inv_upload_ok : uploadFailureShown (hooks r) = false;
  inv_query_ok : queryFailureShown (hooks r) = false
}.

Definition paperPdf : File.t :=
  File.mk (JsString.lit "paper.pdf") pdfType.

Definition notesTxt : File.t :=
  File.mk (JsString.lit "notes.txt") (JsString.lit "text/plain").

Definition withFile (f : File.t) : State := apply (setFile (Some f)) initialState.

Definition withQuestion (q : jsstring) : State :=
  apply (setQuestion q) initialState.

Definition sampleQuestion : jsstring := JsString.lit "What is the main result?".

Definition spaces : jsstring := [32; 9; 160; 10]%N.

(** The cells once the handler of [e] has run to its end. *)
Definition handled (s : State) (e : Event) : State :=
  run (effects (handle s e)) s.

(** The hover flag after each of the four drag events, as C6 words it. *)
Definition hover_flag_claim (s : State) : Prop :=
  isDragging (handled s DragEnter) = true
  /\ isDragging (handled s DragOver) = true
  /\ isDragging (handled s DragLeave) = false
  /\ (forall files, isDragging (handled s (Drop files)) = false).

(** A setter call that would bring up one of the two error displays. *)
Definition storesError (e : Effect) : bool :=
  match e with
  | Call (setUploadStatus (Some u)) =>
      match UploadStatus.type u with
      | UploadStatus.error => true
      | UploadStatus.success => false
      end
  | Call (setReport v) => JsString.eqb v askFailedMessage
  | _ => false
  end.

(** The screen after one finished upload of [paperPdf]. *)
Definition uploadedScreen : Runtime :=
  mkRuntime (apply (setUploadStatus (Some (uploaded paperPdf)))
               (withFile paperPdf)) [].

(** C8 as it is worded: on a running screen, a step that changes the
    outcome is the completion of an upload. *)
Definition outcome_set_only_at_completion : Prop :=
  forall r l r',
    reachable r -> step r l r' ->
    uploadStatus (hooks r') <> uploadStatus (hooks r) ->
    exists f, l = Expire (mkTimer 2000 (uploadResume f)).

(** C9 as it is worded: on a running screen, no step takes the selected
    file from present to absent. *)
Definition file_stays_selected : Prop :=
  forall r l r',
    reachable r -> step r l r' ->
    file (hooks r) <> None -> file (hooks r') <> None.

(** The screen after [paperPdf] was chosen in the file input. *)
Definition chosenScreen : Runtime := mkRuntime (withFile paperPdf) [].

(* ================================================================== *)
(** ** The rendered tree *)
(* ================================================================== *)

(** What the three cartoon components make of their props.
    [RobotAssistant], lines 65-101: the wrapper bounces when [isActive];
    the pupils are amber and pulse when [mood === "working"], green and
    still otherwise. *)
Record Robot : Type := mkRobot {
  robotBounce : bool;
  robotEyeFill : jsstring;
  robotEyePulse : bool
}.

Definition RobotAssistant (isActive : bool) (mood : jsstring) : Robot :=
  let working := JsString.eqb mood (JsString.lit "working") in
  {| robotBounce := isActive;
     robotEyeFill :=
       if working then JsString.lit "#F59E0B" else JsString.lit "#10B981";
     robotEyePulse := working |}.

(** [BookCharacter], lines 103-146: bounces and shows its arms when
    [isReading]. *)
Record Book : Type := mkBook { bookBounce : bool; bookArms : bool }.

Definition BookCharacter (isReading : bool) : Book :=
  {| bookBounce := isReading; bookArms := isReading |}.

(** [SearchMagnifyingGlass], lines 148-177: spins and shows its rays when
    [isSearching], pulses otherwise. *)
Record Glass : Type := mkGlass { glassAnimation : jsstring; glassRays : bool }.

Definition SearchMagnifyingGlass (isSearching : bool) : Glass :=
  {| glassAnimation :=
       if isSearching then JsString.lit "animate-spin"
       else JsString.lit "animate-pulse";
     glassRays := isSearching |}.

(** The status banner of lines 262-277: green with the check mark when
    [uploadStatus.type === 'success'], red with the alert mark otherwise,
    and the message in both cases. *)
Record Banner : Type := mkBanner { bannerGreen : bool; bannerText : jsstring }.

(** The report section of lines 315-359: absent, or the waiting
    animation, or the report text. *)
Inductive ReportPanel : Type :=
| PanelAbsent
| PanelWaiting
| PanelText (text : jsstring).

Definition browsePrompt : jsstring :=
  JsString.lit "Drag and drop your PDF here, or click to browse".

Definition readingLabel : jsstring :=
  JsString.lit "Alex is reading your document...".

Definition uploadLabel : jsstring := JsString.lit "Upload PDF".

(** What the [return] of [App] shows, as far as it depends on the cells
    (lines 179-359). *)
Record View : Type := mkView {
  viewRobot : Robot;                   (* line 185 *)
  viewBook : Book;                     (* line 206 *)
  viewDropHighlighted : bool;          (* lines 210-214 *)
  viewFileInputDisabled : bool;        (* line 224 *)
  viewFileLabel : jsstring;            (* line 232 *)
  viewFileReady : bool;                (* lines 236-240 *)
  viewUploadDisabled : bool;           (* line 245 *)
  viewUploadLabel : jsstring;          (* lines 248-258 *)
  viewBanner : option Banner;          (* lines 262-277 *)
  viewGlass : Glass;                   (* line 287 *)
  viewQuestionValue : jsstring;        (* line 293 *)
  viewQuestionDisabled : bool;         (* line 298 *)
  viewAskDisabled : bool;              (* line 302 *)
  viewAskSpinner : bool;               (* lines 305-309 *)
  viewReport : ReportPanel             (* lines 315-359 *)
}.

Definition render (s : State) : View :=
  {| viewRobot :=
       RobotAssistant (isUploading s || isAsking s)
         (if isAsking s then JsString.lit "working" else JsString.lit "happy");
     viewBook := BookCharacter (isUploading s);
     viewDropHighlighted := isDragging s;
     viewFileInputDisabled := isUploading s;
     viewFileLabel :=
       match file s with
       | Some f => File.name f
       | None => browsePrompt
       end;
     viewFileReady := match file s with Some _ => true | None => false end;
     viewUploadDisabled :=
       match file s with None => true | Some _ => false end || isUploading s;
     viewUploadLabel := if isUploading s then readingLabel else uploadLabel;
     viewBanner :=
       match uploadStatus s with
       | Some u =>
           Some (mkBanner
                   match UploadStatus.type u with
                   | UploadStatus.success => true
                   | UploadStatus.error => false
                   end
                   (UploadStatus.message u))
       | None => None
       end;
     viewGlass := SearchMagnifyingGlass (isAsking s);
     viewQuestionValue := question s;
     viewQuestionDisabled := isAsking s;
     viewAskDisabled :=
       negb (JsString.truthy (JsString.trim (question s))) || isAsking s;
     viewAskSpinner := isAsking s;
     viewReport :=
       if JsString.truthy (report s) || isAsking s then
         if isAsking s then PanelWaiting else PanelText (report s)
       else PanelAbsent |}.

(* ================================================================== *)
(** ** The transitions of the running screen *)
(* ================================================================== *)

(** The moves of the screen written out cell by cell: what each event and
    each expiry does to the cells and to the pending timers. *)
Inductive Change : Runtime -> Label -> Runtime -> Prop :=
| change_nothing : forall r e,
    e = DragEnter
    \/ (exists key, e = QuestionKeyPress key
                    /\ JsString.eqb key (JsString.lit "Enter") = false
                    /\ isAsking (hooks r) = false)
    \/ (e = QuestionKeyPress (JsString.lit "Enter")
        /\ JsString.blank (question (hooks r)) = true
        /\ isAsking (hooks r) = false) ->
    Change r (Fire e) (mkRuntime (hooks r) (timers r))
| change_hover : forall r e b,
    (e = DragOver /\ b = true)
    \/ (e = DragLeave /\ b = false)
    \/ (exists files, e = Drop files /\ b = false
                      /\ forall f rest, files = f :: rest ->
                                        File.type f <> pdfType) ->
    Change r (Fire e)
      (mkRuntime (apply (setIsDragging b) (hooks r)) (timers r))
| change_dropped : forall r f rest,
    File.type f = pdfType ->
    Change r (Fire (Drop (f :: rest)))
      (mkRuntime (apply (setFile (Some f))
                    (apply (setIsDragging false) (hooks r))) (timers r))
| change_chosen : forall r files,
    isUploading (hooks r) = false ->
    Change r (Fire (FileChange files))
      (mkRuntime (apply (setFile (hd_error files)) (hooks r)) (timers r))
| change_typed : forall r v,
    isAsking (hooks r) = false ->
    Change r (Fire (QuestionChange v))
      (mkRuntime (apply (setQuestion v) (hooks r)) (timers r))
| change_upload : forall r f,
    file (hooks r) = Some f ->
    isUploading (hooks r) = false ->
    Change r (Fire UploadClick)
      (mkRuntime
         (apply (setUploadStatus None) (apply (setIsUploading true) (hooks r)))
         (timers r ++ [mkTimer 2000 (uploadResume f)]))
| change_ask : forall r e,
    e = AskClick \/ e = QuestionKeyPress (JsString.lit "Enter") ->
    JsString.blank (question (hooks r)) = false ->
    isAsking (hooks r) = false ->
    Change r (Fire e)
      (mkRuntime (apply (setIsAsking true) (hooks r))
         (timers r ++ [mkTimer 3000 (askResume (question (hooks r)))]))
| change_uploaded : forall r f pre post,
    timers r = (pre ++ mkTimer 2000 (uploadResume f) :: post)%list ->
    Change r (Expire (mkTimer 2000 (uploadResume f)))
      (mkRuntime
         (apply (setIsUploading false)
            (apply (setUploadStatus (Some (uploaded f))) (hooks r)))
         (pre ++ post))
| change_answered : forall r q pre post,
    timers r = (pre ++ mkTimer 3000 (askResume q) :: post)%list ->
    Change r (Expire (mkTimer 3000 (askResume q)))
      (mkRuntime
         (apply (setIsAsking false) (apply (setReport (reportFor q)) (hooks r)))
         (pre ++ post)).

(** A pending timer as the cells [s] account for it: the continuation of
    some upload, or the continuation of the query of the question that is
    in the box, which is not blank. *)
Definition accounted (s : State) (t : Timer) : Prop :=
  (exists f, t = mkTimer 2000 (uploadResume f))
  \/ (t = mkTimer 3000 (askResume (question s))
      /\ JsString.blank (question s) = false).

(** What the screen can be showing. *)
Record Shown (r : Runtime) : Prop := mkShown {
  shown_timers : Forall (accounted (hooks r)) (timers r);
  shown_report :
    report (hooks r) = []
    \/ exists q, JsString.blank q = false /\ report (hooks r) = reportFor q;
  shown_status :
    uploadStatus (hooks r) = None
    \/ exists f, uploadStatus (hooks r) = Some (uploaded f);
  shown_clear :
    isUploading (hooks r) = true -> uploadStatus (hooks r) = None
}.

(** The screen with an upload of [paperPdf] and a query of
    [sampleQuestion] both in flight. *)
Definition busyScreen : Runtime :=
  mkRuntime
    (apply (setIsAsking true)
       (apply (setIsUploading true)
          (apply (setQuestion sampleQuestion) (withFile paperPdf))))
    [mkTimer 2000 (uploadResume paperPdf);
     mkTimer 3000 (askResume sampleQuestion)].

(** The body of [uploadFile] and of [askQuestion] past their guard, with
    the awaited promise as a parameter; the code awaits
    [timeoutPromise 2000] and [timeoutPromise 3000]. *)
Definition uploadAwaiting (p : Promise) (f : File.t) : M unit :=
  call (setIsUploading true) ;;
  call (setUploadStatus None) ;;
  tryCatchFinally
    (await p ;; call (setUploadStatus (Some (uploaded f))))
    uploadCatch uploadFinally.

Definition askAwaiting (p : Promise) (q : jsstring) : M unit :=
  call (setIsAsking true) ;;
  tryCatchFinally (await p ;; call (setReport (reportFor q)))
    askCatch askFinally.

(* ================================================================== *)
(** ** Facts about strings *)
(* ================================================================== *)

Section StringFacts.

Import JsString.

Lemma eqb_refl : forall a, eqb a a = true.
Proof.
  induction a as [|x a IH]; simpl; [reflexivity|].
  now rewrite N.eqb_refl, IH.
Qed.

Lemma eqb_eq : forall a b, eqb a b = true <-> a = b.
Proof.
  induction a as [|x a IH]; destruct b as [|y b]; simpl; split;
    try congruence; try reflexivity.
  - rewrite andb_true_iff, N.eqb_eq, IH. intros [-> ->]. reflexivity.
  - intros E. injection E as -> ->. now rewrite N.eqb_refl, eqb_refl.
Qed.

Lemma eqb_neq : forall a b, eqb a b = false <-> a <> b.
Proof.
  intros a b. rewrite <- eqb_eq. destruct (eqb a b); split; congruence.
Qed.

Lemma startsWith_app : forall p s, startsWith p (p ++ s) = true.
Proof.
  induction p as [|x p IH]; intros s; simpl; [reflexivity|].
  now rewrite N.eqb_refl, IH.
Qed.

Lemma startsWith_split :
  forall p s, startsWith p s = true -> exists post, s = p ++ post.
Proof.
  induction p as [|x p IH]; intros s H; simpl in *.
  - now exists s.
  - destruct s as [|y s]; [discriminate|].
    apply andb_true_iff in H as [Hx Hp]. apply N.eqb_eq in Hx as ->.
    destruct (IH _ Hp) as [post ->]. now exists post.
Qed.

Lemma includes_app :
  forall pre sub post, includes sub (pre ++ sub ++ post) = true.
Proof.
  induction pre as [|x pre IH]; intros sub post.
  - simpl app. destruct (sub ++ post) eqn:E; simpl;
      rewrite <- ?E, startsWith_app; reflexivity.
  - simpl. rewrite IH. apply orb_true_r.
Qed.

Lemma includes_split :
  forall sub s, includes sub s = true ->
                exists pre post, s = pre ++ sub ++ post.
Proof.
  intros sub s. induction s as [|y s IH]; simpl; intros H.
  - rewrite orb_false_r in H. apply startsWith_split in H as [post ->].
    now exists [], post.
  - apply orb_true_iff in H as [H|H].
    + apply startsWith_split in H as [post ->]. now exists [], post.
    + destruct (IH H) as (pre & post & ->). now exists (y :: pre), post.
Qed.

(** [includes] is the substring relation. *)
Lemma includes_iff :
  forall sub s, includes sub s = true <->
                exists pre post, s = pre ++ sub ++ post.
Proof.
  intros sub s. split; [apply includes_split|].
  intros (pre & post & ->). apply includes_app.
Qed.

Lemma blank_app : forall a b, blank (a ++ b) = blank a && blank b.
Proof. intros a b. apply forallb_app. Qed.

Lemma blank_rev : forall s, blank (rev s) = blank s.
Proof.
  induction s as [|c s IH]; simpl; [reflexivity|].
  rewrite blank_app, IH. simpl. rewrite andb_true_r. apply andb_comm.
Qed.

Lemma trimStart_nil : forall s, trimStart s = [] <-> blank s = true.
Proof.
  induction s as [|c s IH]; simpl; [tauto|].
  destruct (isWhiteSpace c); simpl; [exact IH|]. split; discriminate.
Qed.

Lemma blank_trimStart : forall s, blank (trimStart s) = blank s.
Proof.
  induction s as [|c s IH]; simpl; [reflexivity|].
  destruct (isWhiteSpace c) eqn:E; simpl; [exact IH|]. now rewrite E.
Qed.

(** The test of [askQuestion]: [question.trim()] is the empty string
    exactly when every code unit of [question] is white space. *)
Lemma trim_nil : forall s, trim s = [] <-> blank s = true.
Proof.
  intros s. unfold trim, trimEnd.
  rewrite <- (blank_trimStart s), <- (blank_rev (trimStart s)),
    <- trimStart_nil.
  split; intros H.
  - apply (f_equal (@rev N)) in H. now rewrite rev_involutive in H.
  - now rewrite H.
Qed.

Lemma truthy_trim : forall s, truthy (trim s) = negb (blank s).
Proof.
  intros s. destruct (blank s) eqn:B.
  - apply trim_nil in B. now rewrite B.
  - destruct (trim s) eqn:T; [|reflexivity].
    apply trim_nil in T. congruence.
Qed.

End StringFacts.

(* ================================================================== *)
(** ** What the two simulations do *)
(* ================================================================== *)

Lemma uploadFile_none :
  forall s, file s = None -> uploadFile s = ([], inr tt).
Proof. intros s H. unfold uploadFile. now rewrite H. Qed.

Lemma uploadFile_some :
  forall s f, file s = Some f ->
    uploadFile s =
    (Call (setIsUploading true) :: Call (setUploadStatus None)
       :: Await 2000 :: uploadResume f, inr tt).
Proof. intros s f H. unfold uploadFile. now rewrite H. Qed.

Lemma askQuestion_blank :
  forall s, JsString.blank (question s) = true ->
    askQuestion s = ([], inr tt).
Proof.
  intros s H. unfold askQuestion. now rewrite truthy_trim, H.
Qed.

Lemma askQuestion_text :
  forall s, JsString.blank (question s) = false ->
    askQuestion s =
    (Call (setIsAsking true) :: Await 3000 :: askResume (question s),
     inr tt).
Proof.
  intros s H. unfold askQuestion. now rewrite truthy_trim, H.
Qed.

Lemma handleDrop_nil : handleDrop [] = ([Call (setIsDragging false)], inr tt).
Proof. reflexivity. Qed.

Lemma handleDrop_pdf :
  forall f rest, File.type f = pdfType ->
    handleDrop (f :: rest) =
    ([Call (setIsDragging false); Call (setFile (Some f))], inr tt).
Proof.
  intros f rest H. unfold handleDrop. cbn [hd_error]. cbv beta iota zeta.
  apply (proj2 (eqb_eq _ _)) in H. now rewrite H.
Qed.

Lemma handleDrop_other :
  forall f rest, File.type f <> pdfType ->
    handleDrop (f :: rest) = ([Call (setIsDragging false)], inr tt).
Proof.
  intros f rest H. unfold handleDrop. cbn [hd_error]. cbv beta iota zeta.
  apply (proj2 (eqb_neq _ _)) in H. now rewrite H.
Qed.

(** The canned report never reads as the failure text: it begins with
    another letter. *)
Lemma reportFor_not_failed : forall q, reportFor q <> askFailedMessage.
Proof. intros q. unfold reportFor. discriminate. Qed.

Lemma reportFor_eqb_failed :
  forall q, JsString.eqb (reportFor q) askFailedMessage = false.
Proof. intros q. apply eqb_neq, reportFor_not_failed. Qed.

(* ================================================================== *)
(** ** The invariant of the running screen *)
(* ================================================================== *)

Lemma count_app :
  forall p a b, count p (a ++ b) = count p a + count p b.
Proof.
  intros p a b. unfold count. now rewrite filter_app, length_app.
Qed.

Lemma count_cons :
  forall p t ts, count p (t :: ts) = flag (p t) + count p ts.
Proof. intros p t ts. unfold count. simpl. now destruct (p t). Qed.

Lemma count_remove :
  forall p pre t post,
    count p (pre ++ t :: post) = flag (p t) + count p (pre ++ post).
Proof.
  intros p pre t post. rewrite !count_app, count_cons. lia.
Qed.

Lemma Forall_remove :
  forall (P : Timer -> Prop) pre t post,
    Forall P (pre ++ t :: post) -> P t /\ Forall P (pre ++ post).
Proof.
  intros P pre t post H. apply Forall_app in H as [Hpre Hpost].
  inversion Hpost; subst. split; [assumption|].
  apply Forall_app. now split.
Qed.

Lemma Forall_snoc :
  forall (P : Timer -> Prop) ts t, Forall P ts -> P t -> Forall P (ts ++ [t]).
Proof.
  intros P ts t H Ht. apply Forall_app. split; [assumption|].
  now constructor.
Qed.

Lemma Inv_initial : Inv initialRuntime.
Proof. constructor; simpl; try reflexivity. constructor. Qed.

(** A handler that only writes cells other than the busy flags, the
    outcome and the report keeps the invariant. *)
Lemma Inv_frame :
  forall r s',
    Inv r ->
    isUploading s' = isUploading (hooks r) ->
    isAsking s' = isAsking (hooks r) ->
    uploadStatus s' = uploadStatus (hooks r) ->
    report s' = report (hooks r) ->
    Inv {| hooks := s'; timers := timers r |}.
Proof.
  intros r s' [Hp Hu Ha Hue Hqe] E1 E2 E3 E4.
  constructor; simpl.
  - assumption.
  - now rewrite E1.
  - now rewrite E2.
  - unfold uploadFailureShown in *. now rewrite E3.
  - unfold queryFailureShown in *. now rewrite E4.
Qed.

Lemma Inv_start_upload :
  forall r f,
    Inv r -> isUploading (hooks r) = false ->
    Inv (launch (Call (setIsUploading true) :: Call (setUploadStatus None)
                   :: Await 2000 :: uploadResume f) r).
Proof.
  intros r f [Hp Hu Ha Hue Hqe] Hidle. unfold launch. simpl.
  constructor; simpl.
  - apply Forall_snoc; [assumption | constructor].
  - rewrite count_app, Hu, Hidle. reflexivity.
  - rewrite count_app, Ha. cbn. lia.
  - reflexivity.
  - assumption.
Qed.

Lemma Inv_start_ask :
  forall r q,
    Inv r -> isAsking (hooks r) = false ->
    Inv (launch (Call (setIsAsking true) :: Await 3000 :: askResume q) r).
Proof.
  intros r q [Hp Hu Ha Hue Hqe] Hidle. unfold launch. simpl.
  constructor; simpl.
  - apply Forall_snoc; [assumption | constructor].
  - rewrite count_app, Hu. cbn. lia.
  - rewrite count_app, Ha, Hidle. reflexivity.
  - assumption.
  - assumption.
Qed.

Lemma Inv_launch_nil :
  forall r, Inv r -> Inv (launch [] r).
Proof. intros r H. unfold launch. simpl. now apply Inv_frame. Qed.

Lemma Inv_askQuestion :
  forall r, Inv r -> isAsking (hooks r) = false ->
    Inv (launch (effects (askQuestion (hooks r))) r).
Proof.
  intros r H Hidle.
  destruct (JsString.blank (question (hooks r))) eqn:B.
  - rewrite (askQuestion_blank _ B). now apply Inv_launch_nil.
  - rewrite (askQuestion_text _ B). now apply Inv_start_ask.
Qed.

Lemma Inv_fire :
  forall r e, Inv r -> disabled (hooks r) e = false ->
    Inv (launch (effects (handle (hooks r) e)) r).
Proof.
  intros r e H Hen. destruct e as [| | |files|files| |v|key|]; simpl in *.
  - now apply Inv_launch_nil.
  - unfold launch. simpl. now apply Inv_frame.
  - unfold launch. simpl. now apply Inv_frame.
  - destruct files as [|f rest].
    + unfold launch. simpl. now apply Inv_frame.
    + destruct (list_eq_dec N.eq_dec (File.type f) pdfType) as [E|E].
      * rewrite (handleDrop_pdf f rest E). unfold launch. simpl.
        now apply Inv_frame.
      * rewrite (handleDrop_other f rest E). unfold launch. simpl.
        now apply Inv_frame.
  - unfold launch. simpl. now apply Inv_frame.
  - apply orb_false_iff in Hen as [Hf Hidle].
    destruct (file (hooks r)) as [f|] eqn:F; [|discriminate].
    rewrite (uploadFile_some _ _ F). now apply Inv_start_upload.
  - unfold launch. simpl. now apply Inv_frame.
  - destruct (JsString.eqb key (JsString.lit "Enter")).
    + now apply Inv_askQuestion.
    + now apply Inv_launch_nil.
  - apply orb_false_iff in Hen as [_ Hidle]. now apply Inv_askQuestion.
Qed.

Lemma Inv_expire :
  forall r t pre post, Inv r -> timers r = pre ++ t :: post ->
    Inv (launch (resume t) {| hooks := hooks r; timers := pre ++ post |}).
Proof.
  intros r t pre post [Hp Hu Ha Hue Hqe] E. rewrite E in *.
  apply Forall_remove in Hp as [Ht Hp].
  rewrite count_remove in Hu, Ha.
  destruct Ht as [f|q]; cbn in Hu, Ha; unfold launch; simpl;
    constructor; simpl; try assumption; try reflexivity.
  - destruct (isUploading (hooks r)); simpl in Hu; simpl; lia.
  - destruct (isAsking (hooks r)); simpl in Ha; simpl; lia.
Qed.

Lemma Inv_step : forall r l r', Inv r -> step r l r' -> Inv r'.
Proof.
  intros r l r' H S. destruct S as [r e Hen | r t pre post E].
  - now apply Inv_fire.
  - now apply Inv_expire with (r := r).
Qed.

Lemma reachable_Inv : forall r, reachable r -> Inv r.
Proof.
  induction 1 as [|r l r' _ IH S]; [apply Inv_initial|].
  exact (Inv_step r l r' IH S).
Qed.

Lemma count_In :
  forall p t ts, In t ts -> p t = true -> 1 <= count p ts.
Proof.
  intros p t ts H Ht. apply in_split in H as (pre & post & ->).
  rewrite count_remove, Ht. simpl. lia.
Qed.

(** While the timer of a simulation is pending, its busy flag is set. *)
Lemma upload_timer_busy :
  forall r t, reachable r -> In t (timers r) -> isUploadTimer t = true ->
    isUploading (hooks r) = true.
Proof.
  intros r t R H Ht. destruct (reachable_Inv r R) as [_ Hu _ _ _].
  pose proof (count_In isUploadTimer t (timers r) H Ht) as C.
  rewrite Hu in C. destruct (isUploading (hooks r)); [reflexivity|].
  simpl in C. lia.
Qed.

Lemma ask_timer_busy :
  forall r t, reachable r -> In t (timers r) -> isAskTimer t = true ->
    isAsking (hooks r) = true.
Proof.
  intros r t R H Ht. destruct (reachable_Inv r R) as [_ _ Ha _ _].
  pose proof (count_In isAskTimer t (timers r) H Ht) as C.
  rewrite Ha in C. destruct (isAsking (hooks r)); [reflexivity|].
  simpl in C. lia.
Qed.

(* ================================================================== *)
(** ** The upload simulation *)
(* ================================================================== *)

(** C1.  With a file selected, [uploadFile] performs, in this order: set
    the uploading flag, clear the outcome, wait 2000 ms, store a success
    outcome, clear the uploading flag; it does not throw.  The cells at
    the point of suspension have the flag set, and on a running screen
    the flag is set for as long as the timer of this upload is pending;
    whatever the cells are when the timer fires, resuming stores the
    success outcome, whose message contains the name of the file, and
    leaves the flag cleared. *)
Theorem uploadFile_with_selected_file :
  forall s f, file s = Some f ->
    uploadFile s =
      ([Call (setIsUploading true); Call (setUploadStatus None);
        Await 2000;
        Call (setUploadStatus (Some (uploaded f)));
        Call (setIsUploading false)], inr tt)
    /\ (exists s1,
          runSync (effects (uploadFile s)) s
            = (s1, Some (2000%N, uploadResume f))
          /\ isUploading s1 = true)
    /\ UploadStatus.type (uploaded f) = UploadStatus.success
    /\ JsString.includes (File.name f) (UploadStatus.message (uploaded f))
         = true
    /\ (forall r,
          reachable r -> In (mkTimer 2000 (uploadResume f)) (timers r) ->
          isUploading (hooks r) = true)
    /\ (forall s2,
          exists s3,
            runSync (uploadResume f) s2 = (s3, None)
            /\ uploadStatus s3 = Some (uploaded f)
            /\ isUploading s3 = false).
Proof.
  intros s f H. rewrite (uploadFile_some s f H).
  split; [reflexivity|]. split; [|split; [reflexivity|split; [|split]]].
  - eexists. simpl. split; reflexivity.
  - apply includes_iff. exists (JsString.lit "PDF uploaded: "), [].
    now rewrite app_nil_r.
  - intros r R T. now apply (upload_timer_busy r _ R T).
  - intros s2. eexists. simpl. repeat split; reflexivity.
Qed.

Lemma uploadFile_with_selected_file_witness :
  file (withFile paperPdf) = Some paperPdf
  /\ exists s3,
       runSync (uploadResume paperPdf) (withFile paperPdf) = (s3, None)
       /\ uploadStatus s3 = Some (uploaded paperPdf)
       /\ isUploading s3 = false.
Proof.
  split; [reflexivity|].
  apply (uploadFile_with_selected_file (withFile paperPdf) paperPdf).
  reflexivity.
Defined.

(** C3.  With no file selected, [uploadFile] returns at once: it calls no
    setter and starts no timer, so every cell is as before. *)
Theorem uploadFile_without_file :
  forall s, file s = None ->
    uploadFile s = ([], inr tt)
    /\ runSync (effects (uploadFile s)) s = (s, None)
    /\ run (effects (uploadFile s)) s = s
    /\ forall ts,
         launch (effects (uploadFile s)) (mkRuntime s ts) = mkRuntime s ts.
Proof.
  intros s H. rewrite (uploadFile_none s H). repeat split.
Qed.

Lemma uploadFile_without_file_witness :
  file (withQuestion sampleQuestion) = None
  /\ run (effects (uploadFile (withQuestion sampleQuestion)))
         (withQuestion sampleQuestion)
     = withQuestion sampleQuestion.
Proof.
  split; [reflexivity|].
  apply (uploadFile_without_file (withQuestion sampleQuestion)).
  reflexivity.
Defined.

(* ================================================================== *)
(** ** The query simulation *)
(* ================================================================== *)

(** C2.  With a question that is not empty and not all white space,
    [askQuestion] performs, in this order: set the asking flag, wait
    3000 ms, store the report, clear the asking flag; it does not throw.
    The flag is set at the point of suspension and, on a running screen,
    for as long as the timer of this query is pending.  The report
    contains the question as it was submitted. *)
Theorem askQuestion_with_text :
  forall s, JsString.blank (question s) = false ->
    askQuestion s =
      ([Call (setIsAsking true);
        Await 3000;
        Call (setReport (reportFor (question s)));
        Call (setIsAsking false)], inr tt)
    /\ (exists s1,
          runSync (effects (askQuestion s)) s
            = (s1, Some (3000%N, askResume (question s)))
          /\ isAsking s1 = true)
    /\ JsString.includes (question s) (reportFor (question s)) = true
    /\ (forall r,
          reachable r ->
          In (mkTimer 3000 (askResume (question s))) (timers r) ->
          isAsking (hooks r) = true)
    /\ (forall s2,
          exists s3,
            runSync (askResume (question s)) s2 = (s3, None)
            /\ report s3 = reportFor (question s)
            /\ isAsking s3 = false).
Proof.
  intros s H. rewrite (askQuestion_text s H).
  split; [reflexivity|]. split; [|split; [|split]].
  - eexists. simpl. split; reflexivity.
  - apply includes_app.
  - intros r R T. now apply (ask_timer_busy r _ R T).
  - intros s2. eexists. simpl. repeat split; reflexivity.
Qed.

Lemma askQuestion_with_text_witness :
  JsString.blank (question (withQuestion sampleQuestion)) = false
  /\ JsString.includes sampleQuestion (reportFor sampleQuestion) = true.
Proof.
  split; [reflexivity|].
  apply (askQuestion_with_text (withQuestion sampleQuestion)).
  reflexivity.
Defined.

(** C4.  With a question that is empty or all white space, [askQuestion]
    returns at once: it calls no setter and starts no timer, so every
    cell is as before. *)
Theorem askQuestion_blank_question :
  forall s, JsString.blank (question s) = true ->
    askQuestion s = ([], inr tt)
    /\ runSync (effects (askQuestion s)) s = (s, None)
    /\ run (effects (askQuestion s)) s = s
    /\ forall ts,
         launch (effects (askQuestion s)) (mkRuntime s ts) = mkRuntime s ts.
Proof.
  intros s H. rewrite (askQuestion_blank s H). repeat split.
Qed.

Lemma askQuestion_blank_question_witness :
  JsString.blank (question (withQuestion spaces)) = true
  /\ run (effects (askQuestion (withQuestion spaces))) (withQuestion spaces)
     = withQuestion spaces.
Proof.
  split; [reflexivity|].
  apply (askQuestion_blank_question (withQuestion spaces)).
  reflexivity.
Defined.

(** C10.  The query reads no cell but [question]: two renders with the
    same question run the same effects, whatever their file and upload
    outcome, and these effects are the full query (set the flag, wait
    3000 ms, store the report, clear the flag), never the early return.
    Neither the synchronous part nor the resumption writes [file] or
    [uploadStatus].  The report that is stored is a report indeed: it is
    not the empty string, it begins with the opening words of the
    template and it contains the question.  A screen that never had a
    file and never ran an upload still gets it: starting from the initial
    cells with only the question typed, the query ends with no file, no
    upload outcome, a report that differs from the empty one it started
    with, and the report section showing that text. *)
Theorem askQuestion_needs_no_file :
  forall q, JsString.blank q = false ->
    (forall s s', question s = q -> question s' = q ->
       askQuestion s = askQuestion s')
    /\ (forall s, question s = q ->
          askQuestion s =
            ([Call (setIsAsking true);
              Await 3000;
              Call (setReport (reportFor q));
              Call (setIsAsking false)], inr tt))
    /\ (forall s, question s = q ->
          let s1 := fst (runSync (effects (askQuestion s)) s) in
          file s1 = file s /\ uploadStatus s1 = uploadStatus s)
    /\ (forall s2,
          let s3 := run (askResume q) s2 in
          report s3 = reportFor q
          /\ file s3 = file s2 /\ uploadStatus s3 = uploadStatus s2)
    /\ (JsString.truthy (reportFor q) = true
        /\ JsString.startsWith
             (JsString.lit
                "Based on the uploaded document, here's what I found regarding ")
             (reportFor q) = true
        /\ JsString.includes q (reportFor q) = true)
    /\ (let s0 := withQuestion q in
        let s3 := run (effects (askQuestion s0)) s0 in
        file s0 = None /\ uploadStatus s0 = None
        /\ file s3 = None /\ uploadStatus s3 = None
        /\ report s3 = reportFor q
        /\ report s3 <> report s0
        /\ JsString.truthy (report s3) = true
        /\ JsString.includes q (report s3) = true
        /\ viewReport (render s3) = PanelText (reportFor q)).
Proof.
  intros q H.
  assert (T : JsString.truthy (reportFor q) = true) by reflexivity.
  assert (I : JsString.includes q (reportFor q) = true)
    by apply includes_app.
  split; [|split; [|split; [|split; [|split]]]].
  - intros s s' E E'. unfold askQuestion. now rewrite E, E'.
  - intros s E. rewrite <- E in H. rewrite (askQuestion_text s H).
    now rewrite E.
  - intros s E. rewrite <- E in H. rewrite (askQuestion_text s H).
    split; reflexivity.
  - intros s2. repeat split.
  - split; [exact T|]. split; [|exact I].
    unfold reportFor, reportHead. rewrite <- app_assoc.
    apply startsWith_app.
  - cbv zeta. rewrite (askQuestion_text (withQuestion q) H).
    cbn [effects fst run askResume withQuestion apply initialState
           file uploadStatus report question].
    repeat split; try assumption.
    intros E. rewrite E in T. discriminate T.
Qed.

Lemma askQuestion_needs_no_file_witness :
  JsString.blank sampleQuestion = false
  /\ file (withQuestion sampleQuestion) = None
  /\ report (run (effects (askQuestion (withQuestion sampleQuestion)))
                 (withQuestion sampleQuestion))
     = reportFor sampleQuestion
  /\ JsString.includes sampleQuestion (reportFor sampleQuestion) = true
  /\ viewReport
       (render (run (effects (askQuestion (withQuestion sampleQuestion)))
                  (withQuestion sampleQuestion)))
     = PanelText (reportFor sampleQuestion).
Proof.
  split; [reflexivity|].
  destruct (askQuestion_needs_no_file sampleQuestion eq_refl)
    as (_ & _ & _ & _ & (_ & _ & I) & (F & _ & _ & _ & R & _ & _ & _ & V)).
  repeat split; assumption.
Defined.

(* ================================================================== *)
(** ** The drop target *)
(* ================================================================== *)

(** C5.  A drop whose first item [f] declares exactly the type
    ["application/pdf"] stores [f] as the selected file; with any other
    declared type the selected file is as before.  In both cases the
    handler does not throw and leaves the report and the upload outcome,
    the two places where the screen shows an error, untouched.  A drop
    that carries no file at all leaves the selected file as before too. *)
Theorem drop_selects_pdf_only :
  forall s f rest,
    let s' := handled s (Drop (f :: rest)) in
    (File.type f = pdfType -> file s' = Some f)
    /\ (File.type f <> pdfType -> file s' = file s)
    /\ completion (handleDrop (f :: rest)) = inr tt
    /\ uploadStatus s' = uploadStatus s
    /\ report s' = report s
    /\ file (handled s (Drop [])) = file s.
Proof.
  intros s f rest. unfold handled. simpl handle.
  destruct (list_eq_dec N.eq_dec (File.type f) pdfType) as [E|E].
  - rewrite (handleDrop_pdf f rest E). repeat split; intros; tauto.
  - rewrite (handleDrop_other f rest E). repeat split; intros; tauto.
Qed.

Lemma drop_selects_pdf_only_witness :
  (File.type paperPdf = pdfType
   /\ file (handled (withFile notesTxt) (Drop [paperPdf])) = Some paperPdf)
  /\ (File.type notesTxt <> pdfType
      /\ file (handled (withFile paperPdf) (Drop [notesTxt]))
         = file (withFile paperPdf)).
Proof.
  split; split.
  - reflexivity.
  - destruct (drop_selects_pdf_only (withFile notesTxt) paperPdf []) as [H _].
    apply H. reflexivity.
  - discriminate.
  - destruct (drop_selects_pdf_only (withFile paperPdf) notesTxt [])
      as (_ & H & _).
    apply H. discriminate.
Defined.

(** C6, as stated, fails: the drop zone has no handler for drag-enter, so
    on the initial screen the event leaves the flag cleared. *)
Lemma dragenter_leaves_flag_cleared :
  isDragging (handled initialState DragEnter) = false
  /\ ~ hover_flag_claim initialState.
Proof.
  split; [reflexivity|]. intros [H _]. discriminate H.
Qed.

(** C6, amended.  Whatever the flag was: drag-over sets it, drag-leave
    and drop clear it, and drag-enter, for which the drop zone has no
    handler, changes no cell at all. *)
Theorem hover_flag_events :
  forall s,
    isDragging (handled s DragOver) = true
    /\ isDragging (handled s DragLeave) = false
    /\ (forall files, isDragging (handled s (Drop files)) = false)
    /\ handled s DragEnter = s.
Proof.
  intros s. repeat split.
  intros files. unfold handled. simpl handle.
  destruct files as [|f rest]; [reflexivity|].
  destruct (list_eq_dec N.eq_dec (File.type f) pdfType) as [E|E].
  - now rewrite (handleDrop_pdf f rest E).
  - now rewrite (handleDrop_other f rest E).
Qed.

(* ================================================================== *)
(** ** Steps of the running screen *)
(* ================================================================== *)

Lemma hooks_launch :
  forall es r, hooks (launch es r) = fst (runSync es (hooks r)).
Proof.
  intros es r. unfold launch.
  destruct (runSync es (hooks r)) as [s' [[ms k]|]]; reflexivity.
Qed.

Lemma nth_error_cut :
  forall (ts : list Timer) n t,
    nth_error ts n = Some t -> ts = firstn n ts ++ t :: skipn (S n) ts.
Proof.
  induction ts as [|a ts IH]; intros [|n] t H; simpl in *; try discriminate.
  - now injection H as ->.
  - f_equal. now apply IH.
Qed.

Lemma perform_step :
  forall r k r', perform r k = Some r' -> exists l, step r l r'.
Proof.
  intros r [e|n] r' H; simpl in H.
  - destruct (disabled (hooks r) e) eqn:D; [discriminate|].
    injection H as <-. exists (Fire e). now constructor.
  - destruct (nth_error (timers r) n) as [t|] eqn:E; [|discriminate].
    injection H as <-. exists (Expire t).
    apply step_expire. now apply nth_error_cut.
Qed.

Lemma performAll_reachable :
  forall ks r r', reachable r -> performAll r ks = Some r' -> reachable r'.
Proof.
  induction ks as [|k ks IH]; intros r r' R H; simpl in H.
  - now injection H as <-.
  - destruct (perform r k) as [r1|] eqn:P; [|discriminate].
    destruct (perform_step r k r1 P) as [l S].
    apply (IH r1 r'); [|assumption]. exact (reach_step r l r1 R S).
Qed.

(** What a step does to the cells: an event runs the synchronous part of
    its handler; an expiry, on a reachable screen, runs the rest of an
    upload or of a query. *)
Lemma step_fire_hooks :
  forall r e r', step r (Fire e) r' ->
    disabled (hooks r) e = false
    /\ hooks r' = fst (runSync (effects (handle (hooks r) e)) (hooks r)).
Proof.
  intros r e r' S. inversion S; subst. split; [assumption|].
  apply hooks_launch.
Qed.

Lemma step_expire_hooks :
  forall r t r', Inv r -> step r (Expire t) r' ->
    pending t /\ hooks r' = run (resume t) (hooks r).
Proof.
  intros r t r' I S. inversion S as [|r0 t0 pre post E]; subst.
  destruct I as [Hp _ _ _ _]. rewrite E in Hp.
  apply Forall_remove in Hp as [Ht _]. split; [assumption|].
  rewrite hooks_launch. simpl hooks. destruct Ht; reflexivity.
Qed.

(** The cells after an event, handler by handler. *)
Lemma fire_cases :
  forall s e,
    let s' := fst (runSync (effects (handle s e)) s) in
    disabled s e = false ->
    match e with
    | DragEnter => s' = s
    | DragOver => s' = apply (setIsDragging true) s
    | DragLeave => s' = apply (setIsDragging false) s
    | Drop files =>
        s' = apply (setIsDragging false) s
        \/ exists f rest, files = f :: rest /\ File.type f = pdfType
             /\ s' = apply (setFile (Some f)) (apply (setIsDragging false) s)
    | FileChange files => s' = apply (setFile (hd_error files)) s
    | UploadClick =>
        s' = apply (setUploadStatus None) (apply (setIsUploading true) s)
    | QuestionChange v => s' = apply (setQuestion v) s
    | QuestionKeyPress _ | AskClick =>
        s' = s \/ s' = apply (setIsAsking true) s
    end.
Proof.
  intros s e s' D. subst s'.
  destruct e as [| | |files|files| |v|key|]; cbn [handle];
    try reflexivity.
  - destruct files as [|f rest]; [now left|].
    destruct (list_eq_dec N.eq_dec (File.type f) pdfType) as [E|E].
    + rewrite (handleDrop_pdf f rest E). right. now exists f, rest.
    + rewrite (handleDrop_other f rest E). now left.
  - cbn [disabled] in D. destruct (file s) as [f|] eqn:F; [|discriminate].
    now rewrite (uploadFile_some s f F).
  - destruct (JsString.eqb key (JsString.lit "Enter")); [|now left].
    destruct (JsString.blank (question s)) eqn:B.
    + rewrite (askQuestion_blank s B). now left.
    + rewrite (askQuestion_text s B). now right.
  - destruct (JsString.blank (question s)) eqn:B.
    + rewrite (askQuestion_blank s B). now left.
    + rewrite (askQuestion_text s B). now right.
Qed.

(* ================================================================== *)
(** ** The error branches *)
(* ================================================================== *)

(** The [catch] blocks are live code of the model: were the awaited
    promise rejected, they would run and store the failure. *)
Example rejected_upload_is_caught :
  forall e,
    tryCatchFinally
      (await (mkPromise 2000 (Rejected e)) ;;
       call (setUploadStatus (Some (uploaded paperPdf))))
      uploadCatch uploadFinally
    = ([Await 2000;
        Call (setUploadStatus
                (Some (UploadStatus.mk UploadStatus.error uploadFailedMessage)));
        Call (setIsUploading false)], inr tt).
Proof. reflexivity. Qed.

Example rejected_query_is_caught :
  forall e,
    tryCatchFinally
      (await (mkPromise 3000 (Rejected e)) ;;
       call (setReport (reportFor sampleQuestion)))
      askCatch askFinally
    = ([Await 3000; Call (setReport askFailedMessage);
        Call (setIsAsking false)], inr tt).
Proof. reflexivity. Qed.

(** C7.  The [try] blocks of both simulations complete normally, so
    neither [catch] block runs; no effect of [uploadFile] stores an error
    outcome and no effect of [askQuestion] stores the failure text, and
    both functions complete without throwing.  On every screen reachable
    from the initial one, neither error display is up. *)
Theorem error_branches_unreachable :
  (forall f, completion (uploadTry f) = inr tt)
  /\ (forall q, completion (askTry q) = inr tt)
  /\ (forall s,
        completion (uploadFile s) = inr tt
        /\ existsb storesError (effects (uploadFile s)) = false)
  /\ (forall s,
        completion (askQuestion s) = inr tt
        /\ existsb storesError (effects (askQuestion s)) = false)
  /\ (forall r, reachable r ->
        uploadFailureShown (hooks r) = false
        /\ queryFailureShown (hooks r) = false).
Proof.
  split; [reflexivity|]. split; [reflexivity|]. split; [|split].
  - intros s. destruct (file s) as [f|] eqn:F.
    + rewrite (uploadFile_some s f F). split; reflexivity.
    + rewrite (uploadFile_none s F). split; reflexivity.
  - intros s. destruct (JsString.blank (question s)) eqn:B.
    + rewrite (askQuestion_blank s B). split; reflexivity.
    + rewrite (askQuestion_text s B). split; [reflexivity|].
      cbn [effects fst askResume existsb storesError orb].
      now rewrite reportFor_eqb_failed.
  - intros r R. destruct (reachable_Inv r R) as [_ _ _ Hu Hq]. now split.
Qed.

Lemma uploadedScreen_run :
  performAll initialRuntime
    [Occur (FileChange [paperPdf]); Occur UploadClick; Elapse 0]
  = Some uploadedScreen.
Proof. reflexivity. Qed.

Lemma uploadedScreen_reachable : reachable uploadedScreen.
Proof.
  exact (performAll_reachable _ _ _ reach_init uploadedScreen_run).
Qed.

Lemma error_branches_unreachable_witness :
  reachable uploadedScreen
  /\ uploadFailureShown (hooks uploadedScreen) = false
  /\ queryFailureShown (hooks uploadedScreen) = false.
Proof.
  split; [exact uploadedScreen_reachable|].
  destruct error_branches_unreachable as (_ & _ & _ & _ & H).
  exact (H uploadedScreen uploadedScreen_reachable).
Defined.

(* ================================================================== *)
(** ** Who writes the upload outcome *)
(* ================================================================== *)

(** C8, as stated, fails: after a finished upload the outcome is a
    success object, and the next click on the upload button replaces it
    by the absent value at once, before any delay ([setUploadStatus(null)],
    line 17). *)
Lemma upload_start_clears_outcome :
  uploadStatus (hooks uploadedScreen) = Some (uploaded paperPdf)
  /\ (exists r',
        perform uploadedScreen (Occur UploadClick) = Some r'
        /\ uploadStatus (hooks r') = None)
  /\ ~ outcome_set_only_at_completion.
Proof.
  split; [reflexivity|]. split.
  - eexists. split; reflexivity.
  - intros C.
    assert (S : step uploadedScreen (Fire UploadClick)
                  (launch (effects (handle (hooks uploadedScreen) UploadClick))
                     uploadedScreen))
      by (constructor; reflexivity).
    destruct (C _ _ _ uploadedScreen_reachable S) as [f E];
      [discriminate | discriminate E].
Qed.

(** C8, amended.  On a running screen a step changes the outcome in two
    ways only, both inside the upload operation: the click that starts an
    upload clears it, and the expiry that completes an upload stores the
    success object.  Every other step leaves it as it was. *)
Theorem outcome_written_by_upload_only :
  forall r l r',
    reachable r -> step r l r' ->
    uploadStatus (hooks r') = uploadStatus (hooks r)
    \/ (l = Fire UploadClick /\ uploadStatus (hooks r') = None)
    \/ (exists f,
          l = Expire (mkTimer 2000 (uploadResume f))
          /\ uploadStatus (hooks r') = Some (uploaded f)).
Proof.
  intros r l r' R S. destruct l as [e|t].
  - destruct (step_fire_hooks r e r' S) as [D ->].
    pose proof (fire_cases (hooks r) e D) as H. cbv zeta in H.
    destruct e; try (left; now rewrite H).
    + destruct H as [H | (f & rest & _ & _ & H)]; left; now rewrite H.
    + right; left. split; [reflexivity|]. now rewrite H.
    + destruct H as [H|H]; left; now rewrite H.
    + destruct H as [H|H]; left; now rewrite H.
  - destruct (step_expire_hooks r t r' (reachable_Inv r R) S) as [[f|q] ->].
    + right; right. exists f. split; reflexivity.
    + left. reflexivity.
Qed.

Lemma outcome_written_by_upload_only_witness :
  exists r',
    reachable uploadedScreen
    /\ step uploadedScreen (Fire DragOver) r'
    /\ (uploadStatus (hooks r') = uploadStatus (hooks uploadedScreen)
        \/ (Fire DragOver = Fire UploadClick /\ uploadStatus (hooks r') = None)
        \/ (exists f,
              Fire DragOver = Expire (mkTimer 2000 (uploadResume f))
              /\ uploadStatus (hooks r') = Some (uploaded f))).
Proof.
  eexists. split; [exact uploadedScreen_reachable|].
  assert (S : step uploadedScreen (Fire DragOver)
                (launch (effects (handle (hooks uploadedScreen) DragOver))
                   uploadedScreen))
    by (constructor; reflexivity).
  split; [exact S|].
  exact (outcome_written_by_upload_only _ _ _ uploadedScreen_reachable S).
Defined.

(* ================================================================== *)
(** ** Who writes the selected file *)
(* ================================================================== *)

Lemma chosenScreen_run :
  performAll initialRuntime [Occur (FileChange [paperPdf])]
  = Some chosenScreen.
Proof. reflexivity. Qed.

Lemma chosenScreen_reachable : reachable chosenScreen.
Proof.
  exact (performAll_reachable _ _ _ reach_init chosenScreen_run).
Qed.

(** C9, as stated, fails: a change event of the file input whose file
    list is empty stores [files[0]], that is [undefined], and the screen
    is back to the initial one, with no file selected. *)
Lemma empty_change_clears_file :
  file (hooks chosenScreen) = Some paperPdf
  /\ perform chosenScreen (Occur (FileChange [])) = Some initialRuntime
  /\ file (hooks initialRuntime) = None
  /\ ~ file_stays_selected.
Proof.
  split; [reflexivity|]. split; [reflexivity|]. split; [reflexivity|].
  intros C.
  assert (S : step chosenScreen (Fire (FileChange []))
                (launch (effects (handle (hooks chosenScreen) (FileChange [])))
                   chosenScreen))
    by (constructor; reflexivity).
  apply (C _ _ _ chosenScreen_reachable S); [discriminate | reflexivity].
Qed.

(** C9, amended.  On a running screen, every step other than a change of
    the file input with an empty file list keeps a selected file
    selected.  A step changes the selected file in two ways only: a change
    of the file input stores the first chosen file, and a drop whose first
    item is a PDF stores that item. *)
Theorem file_cleared_only_by_replacement :
  forall r l r',
    reachable r -> step r l r' ->
    l <> Fire (FileChange []) ->
    (file (hooks r) <> None -> file (hooks r') <> None)
    /\ (file (hooks r') = file (hooks r)
        \/ (exists f rest,
              l = Fire (FileChange (f :: rest)) /\ file (hooks r') = Some f)
        \/ (exists f rest,
              l = Fire (Drop (f :: rest)) /\ File.type f = pdfType
              /\ file (hooks r') = Some f)).
Proof.
  intros r l r' R S N.
  assert (T : file (hooks r') = file (hooks r)
              \/ (exists f rest,
                    l = Fire (FileChange (f :: rest))
                    /\ file (hooks r') = Some f)
              \/ (exists f rest,
                    l = Fire (Drop (f :: rest)) /\ File.type f = pdfType
                    /\ file (hooks r') = Some f)).
  { destruct l as [e|t].
    - destruct (step_fire_hooks r e r' S) as [D E].
      pose proof (fire_cases (hooks r) e D) as H. cbv zeta in H.
      rewrite <- E in H. clear E.
      destruct e as [| | |files|files| |v|key|];
        try (left; now rewrite H).
      + destruct H as [H | (f & rest & -> & P & H)].
        * left. now rewrite H.
        * right; right. exists f, rest. rewrite H. now repeat split.
      + destruct files as [|f rest]; [congruence|].
        right; left. exists f, rest. rewrite H. now split.
      + destruct H as [H|H]; left; now rewrite H.
      + destruct H as [H|H]; left; now rewrite H.
    - destruct (step_expire_hooks r t r' (reachable_Inv r R) S)
        as [[f|q] ->]; left; reflexivity. }
  split; [|exact T].
  intros P. destruct T as [E | [(f & rest & _ & E) | (f & rest & _ & _ & E)]];
    rewrite E; [assumption | discriminate | discriminate].
Qed.

Lemma file_cleared_only_by_replacement_witness :
  exists r',
    reachable chosenScreen
    /\ step chosenScreen (Fire (FileChange [notesTxt])) r'
    /\ Fire (FileChange [notesTxt]) <> Fire (FileChange [])
    /\ file (hooks chosenScreen) <> None
    /\ file (hooks r') <> None.
Proof.
  eexists.
  assert (S : step chosenScreen (Fire (FileChange [notesTxt]))
                (launch
                   (effects (handle (hooks chosenScreen) (FileChange [notesTxt])))
                   chosenScreen))
    by (constructor; reflexivity).
  assert (N : Fire (FileChange [notesTxt]) <> Fire (FileChange []))
    by discriminate.
  assert (P : file (hooks chosenScreen) <> None) by discriminate.
  repeat split; [exact chosenScreen_reachable | exact S | exact N | exact P |].
  exact (proj1 (file_cleared_only_by_replacement _ _ _
                  chosenScreen_reachable S N) P).
Defined.

(* ================================================================== *)
(** ** The busy flags *)
(* ================================================================== *)

(** On a running screen each busy flag is set exactly while the timer of
    its simulation is pending, and at most one timer of each kind is
    pending: the flag stays set for the whole delay whatever else happens
    on the screen in between. *)
Theorem busy_flags_track_timers :
  forall r, reachable r ->
    count isUploadTimer (timers r) = flag (isUploading (hooks r))
    /\ count isAskTimer (timers r) = flag (isAsking (hooks r))
    /\ Forall pending (timers r).
Proof.
  intros r R. destruct (reachable_Inv r R) as [Hp Hu Ha _ _].
  now repeat split.
Qed.

(** A full round on the initial screen: choose a file, type a question,
    start both simulations, let the query finish first. *)
Example both_simulations_in_flight :
  exists r1 r2,
    performAll initialRuntime
      [Occur (FileChange [paperPdf]); Occur (QuestionChange sampleQuestion);
       Occur UploadClick; Occur (QuestionKeyPress (JsString.lit "Enter"))]
    = Some r1
    /\ isUploading (hooks r1) = true /\ isAsking (hooks r1) = true
    /\ List.length (timers r1) = 2
    /\ performAll r1 [Elapse 1; Elapse 0] = Some r2
    /\ isUploading (hooks r2) = false /\ isAsking (hooks r2) = false
    /\ report (hooks r2) = reportFor sampleQuestion
    /\ uploadStatus (hooks r2) = Some (uploaded paperPdf)
    /\ timers r2 = [].
Proof. do 2 eexists. repeat split; reflexivity. Qed.


(* ================================================================== *)
(** ** The transition table *)
(* ================================================================== *)

Lemma launch_sync :
  forall a r,
    launch [Call a] r = mkRuntime (apply a (hooks r)) (timers r).
Proof. reflexivity. Qed.

Lemma launch_nil : forall r, launch [] r = mkRuntime (hooks r) (timers r).
Proof. reflexivity. Qed.

Lemma fire_Change :
  forall r e,
    disabled (hooks r) e = false ->
    Change r (Fire e) (launch (effects (handle (hooks r) e)) r).
Proof.
  intros r e D.
  destruct e as [| | |files|files| |v|key|]; cbn [handle disabled] in *.
  - apply change_nothing. now left.
  - apply (change_hover r DragOver true). now left.
  - apply (change_hover r DragLeave false). right. now left.
  - destruct files as [|f rest].
    + apply (change_hover r (Drop []) false). right; right.
      exists []. repeat split. intros f rest E. discriminate E.
    + destruct (list_eq_dec N.eq_dec (File.type f) pdfType) as [E|E].
      * rewrite (handleDrop_pdf f rest E). now apply change_dropped.
      * rewrite (handleDrop_other f rest E).
        apply (change_hover r (Drop (f :: rest)) false). right; right.
        exists (f :: rest). repeat split. intros f' rest' E'.
        now injection E' as <- <-.
  - now apply change_chosen.
  - apply orb_false_iff in D as [Df Du].
    destruct (file (hooks r)) as [f|] eqn:F; [|discriminate].
    rewrite (uploadFile_some _ _ F). now apply (change_upload r f).
  - now apply change_typed.
  - destruct (JsString.eqb key (JsString.lit "Enter")) eqn:K.
    + apply eqb_eq in K. subst key.
      destruct (JsString.blank (question (hooks r))) eqn:B.
      * rewrite (askQuestion_blank _ B). apply change_nothing.
        right; right. now repeat split.
      * rewrite (askQuestion_text _ B). apply change_ask; auto.
    + apply change_nothing. right; left. now exists key.
  - apply orb_false_iff in D as [Dq Da]. rewrite truthy_trim in Dq.
    apply negb_false_iff, negb_true_iff in Dq.
    rewrite (askQuestion_text _ Dq). apply change_ask; auto.
Qed.

Lemma expire_Change :
  forall r t pre post,
    Inv r -> timers r = pre ++ t :: post ->
    Change r (Expire t)
      (launch (resume t) {| hooks := hooks r; timers := pre ++ post |}).
Proof.
  intros r t pre post I E. pose proof (inv_pending r I) as Hp.
  rewrite E in Hp. apply Forall_remove in Hp as [Ht _].
  destruct Ht as [f|q].
  - exact (change_uploaded r f pre post E).
  - exact (change_answered r q pre post E).
Qed.

Lemma step_Change :
  forall r l r', Inv r -> step r l r' -> Change r l r'.
Proof.
  intros r l r' I S. destruct S as [r e D | r t pre post E].
  - now apply fire_Change.
  - now apply expire_Change.
Qed.

(* ================================================================== *)
(** ** What the screen can be showing *)
(* ================================================================== *)

Lemma accounted_frame :
  forall s s' ts,
    question s' = question s ->
    Forall (accounted s) ts -> Forall (accounted s') ts.
Proof.
  intros s s' ts E H. apply (Forall_impl (accounted s') (P := accounted s));
    [|assumption].
  intros t [U|[A B]]; [now left|]. right. now rewrite E.
Qed.

Lemma accounted_uploads_only :
  forall s s' ts,
    count isAskTimer ts = 0 ->
    Forall (accounted s) ts -> Forall (accounted s') ts.
Proof.
  intros s s' ts C H. induction H as [|t ts Ht _ IH]; [constructor|].
  rewrite count_cons in C. destruct Ht as [[f ->]|[-> _]].
  - constructor; [left; now exists f|]. apply IH. cbn in C. lia.
  - cbn in C. discriminate C.
Qed.

Lemma reportFor_truthy : forall q, JsString.truthy (reportFor q) = true.
Proof. reflexivity. Qed.

(** The report determines the question it was made for. *)
Lemma reportFor_inj : forall q q', reportFor q = reportFor q' -> q = q'.
Proof.
  intros q q' H. unfold reportFor in H.
  apply app_inv_head in H. now apply app_inv_tail in H.
Qed.

Lemma askResume_timer_inj :
  forall q q',
    mkTimer 3000 (askResume q) = mkTimer 3000 (askResume q') -> q = q'.
Proof.
  intros q q' H. apply reportFor_inj. unfold askResume in H. congruence.
Qed.

Lemma Shown_initial : Shown initialRuntime.
Proof.
  constructor; simpl; try (now left). constructor.
Qed.

Lemma Shown_Change :
  forall r l r', Inv r -> Shown r -> Change r l r' -> Shown r'.
Proof.
  intros r l r' I [Ht Hr Hs Hc] C.
  destruct C as [r e _ | r e b _ | r f rest _ | r files _ | r v A
                | r f F U | r e _ B A | r f pre post E | r q pre post E];
    constructor; cbn [hooks timers apply report uploadStatus isUploading];
    try assumption;
    try (apply (accounted_frame (hooks r)); [reflexivity | assumption]).
  - (* question edited: no query is in flight *)
    apply (accounted_uploads_only (hooks r)); [|assumption].
    rewrite (inv_asking r I), A. reflexivity.
  - (* upload started *)
    apply Forall_snoc.
    + apply (accounted_frame (hooks r)); [reflexivity | assumption].
    + left. now exists f.
  - now left.
  - reflexivity.
  - (* query started *)
    apply Forall_snoc.
    + apply (accounted_frame (hooks r)); [reflexivity | assumption].
    + right. now split.
  - (* upload finished *)
    rewrite E in Ht. apply Forall_remove in Ht as [_ Ht].
    apply (accounted_frame (hooks r)); [reflexivity | assumption].
  - right. now exists f.
  - discriminate.
  - (* query finished *)
    rewrite E in Ht. apply Forall_remove in Ht as [_ Ht].
    apply (accounted_frame (hooks r)); [reflexivity | assumption].
  - rewrite E in Ht. apply Forall_remove in Ht as [[[f Hf]|[Hq Hb]] _].
    + discriminate Hf.
    + right. exists q. apply askResume_timer_inj in Hq. subst q.
      now split.
Qed.

Lemma reachable_Shown : forall r, reachable r -> Shown r.
Proof.
  induction 1 as [|r l r' R IH S]; [apply Shown_initial|].
  pose proof (reachable_Inv r R) as I.
  exact (Shown_Change r l r' I IH (step_Change r l r' I S)).
Qed.

Lemma Change_step : forall r l r', Change r l r' -> step r l r'.
Proof.
  intros r l r' C.
  destruct C as [r e H | r e b H | r f rest P | r files U | r v A
                | r f F U | r e H B A | r f pre post E | r q pre post E].
  - destruct H as [-> | [(key & -> & K & A) | (-> & B & A)]].
    + exact (step_fire r DragEnter eq_refl).
    + pose proof (step_fire r (QuestionKeyPress key) A) as S.
      cbn [handle] in S. now rewrite K in S.
    + pose proof (step_fire r (QuestionKeyPress (JsString.lit "Enter")) A)
        as S.
      cbn [handle] in S. rewrite eqb_refl, (askQuestion_blank _ B) in S.
      exact S.
  - destruct H as [[-> ->] | [[-> ->] | (files & -> & -> & N)]].
    + exact (step_fire r DragOver eq_refl).
    + exact (step_fire r DragLeave eq_refl).
    + pose proof (step_fire r (Drop files) eq_refl) as S.
      cbn [handle] in S. destruct files as [|f rest]; [exact S|].
      now rewrite (handleDrop_other f rest (N f rest eq_refl)) in S.
  - pose proof (step_fire r (Drop (f :: rest)) eq_refl) as S.
    cbn [handle] in S. now rewrite (handleDrop_pdf f rest P) in S.
  - exact (step_fire r (FileChange files) U).
  - exact (step_fire r (QuestionChange v) A).
  - assert (D : disabled (hooks r) UploadClick = false)
      by (cbn [disabled]; now rewrite F, U).
    pose proof (step_fire r UploadClick D) as S.
    cbn [handle] in S. now rewrite (uploadFile_some _ _ F) in S.
  - assert (T : JsString.truthy (JsString.trim (question (hooks r))) = true)
      by (now rewrite truthy_trim, B).
    destruct H as [-> | ->].
    + assert (D : disabled (hooks r) AskClick = false)
        by (cbn [disabled]; now rewrite T, A).
      pose proof (step_fire r AskClick D) as S.
      cbn [handle] in S. now rewrite (askQuestion_text _ B) in S.
    + pose proof (step_fire r (QuestionKeyPress (JsString.lit "Enter")) A)
        as S.
      cbn [handle] in S. now rewrite eqb_refl, (askQuestion_text _ B) in S.
  - exact (step_expire r _ pre post E).
  - exact (step_expire r _ pre post E).
Qed.

(** The pending timers of a running screen: none, one, or one of each
    kind, with the busy flags to match. *)
Lemma timers_shape :
  forall r, Inv r ->
    (timers r = [] /\ isUploading (hooks r) = false
     /\ isAsking (hooks r) = false)
    \/ (exists f,
          timers r = [mkTimer 2000 (uploadResume f)]
          /\ isUploading (hooks r) = true /\ isAsking (hooks r) = false)
    \/ (exists q,
          timers r = [mkTimer 3000 (askResume q)]
          /\ isUploading (hooks r) = false /\ isAsking (hooks r) = true)
    \/ (exists f q,
          (timers r = [mkTimer 2000 (uploadResume f);
                       mkTimer 3000 (askResume q)]
           \/ timers r = [mkTimer 3000 (askResume q);
                          mkTimer 2000 (uploadResume f)])
          /\ isUploading (hooks r) = true /\ isAsking (hooks r) = true).
Proof.
  intros r [Hp Hu Ha _ _].
  destruct (timers r) as [|t1 [|t2 [|t3 ts]]];
    repeat match goal with
      | H : Forall pending (_ :: _) |- _ => inversion H; clear H; subst
      end;
    repeat match goal with
      | H : pending _ |- _ => destruct H
      end;
    unfold count in Hu, Ha; cbn in Hu, Ha;
    destruct (isUploading (hooks r)), (isAsking (hooks r));
    cbn in Hu, Ha; try discriminate; try lia.
  - now left.
  - right; left. eauto.
  - right; right; left. eauto.
  - right; right; right. eauto 8.
  - right; right; right. eauto 8.
Qed.

Lemma busyScreen_run :
  performAll initialRuntime
    [Occur (FileChange [paperPdf]); Occur (QuestionChange sampleQuestion);
     Occur UploadClick; Occur AskClick]
  = Some busyScreen.
Proof. reflexivity. Qed.

Lemma busyScreen_reachable : reachable busyScreen.
Proof.
  exact (performAll_reachable _ _ _ reach_init busyScreen_run).
Qed.

Lemma busy_flags_track_timers_witness :
  reachable busyScreen
  /\ count isUploadTimer (timers busyScreen)
     = flag (isUploading (hooks busyScreen)).
Proof.
  split; [exact busyScreen_reachable|].
  exact (proj1 (busy_flags_track_timers busyScreen busyScreen_reachable)).
Defined.

(** The moves of a running screen are exactly the nine transitions of
    [Change]: nothing else can happen to the cells or to the timers, and
    each of the nine can happen. *)
Theorem screen_transitions :
  forall r l r', reachable r -> (step r l r' <-> Change r l r').
Proof.
  intros r l r' R. split.
  - apply step_Change. now apply reachable_Inv.
  - apply Change_step.
Qed.

Lemma screen_transitions_witness :
  reachable busyScreen
  /\ step busyScreen (Expire (mkTimer 3000 (askResume sampleQuestion)))
       (mkRuntime
          (apply (setIsAsking false)
             (apply (setReport (reportFor sampleQuestion)) (hooks busyScreen)))
          [mkTimer 2000 (uploadResume paperPdf)]).
Proof.
  split; [exact busyScreen_reachable|].
  apply (screen_transitions busyScreen _ _ busyScreen_reachable).
  exact (change_answered busyScreen sampleQuestion
           [mkTimer 2000 (uploadResume paperPdf)] [] eq_refl).
Defined.

(** On a running screen there are as many pending timers as busy flags
    set, so never more than two; each flag is set exactly when the timer
    of its own simulation is pending, and the pending query is the query
    of the question in the box. *)
Theorem timers_match_flags :
  forall r, reachable r ->
    List.length (timers r)
      = flag (isUploading (hooks r)) + flag (isAsking (hooks r))
    /\ (isUploading (hooks r) = true
        <-> exists f, In (mkTimer 2000 (uploadResume f)) (timers r))
    /\ (isAsking (hooks r) = true
        <-> In (mkTimer 3000 (askResume (question (hooks r)))) (timers r)).
Proof.
  intros r R. pose proof (reachable_Inv r R) as I.
  pose proof (shown_timers r (reachable_Shown r R)) as A.
  destruct (timers_shape r I)
    as [(E & U & K) | [(f & E & U & K) | [(q & E & U & K)
       | (f & q & [E|E] & U & K)]]];
    rewrite E in *; rewrite U, K; (split; [reflexivity|]).
  - split; split; try discriminate; [intros [f []] | intros []].
  - split; split; try discriminate; try reflexivity.
    + intros _. exists f. now left.
    + intros [H|[]]. discriminate H.
  - inversion A as [|t ts [[f Hf]|[Hq _]] _]; subst; [discriminate Hf|].
    split; split; try discriminate; try reflexivity.
    + intros [f [H|[]]]. discriminate H.
    + intros _. left. now rewrite <- Hq.
  - inversion A as [|t ts _ A']; subst.
    inversion A' as [|t ts [[g Hg]|[Hq _]] _]; subst; [discriminate Hg|].
    split; split; try reflexivity.
    + intros _. exists f. now left.
    + intros _. right; left. now rewrite <- Hq.
  - inversion A as [|t ts [[g Hg]|[Hq _]] _]; subst; [discriminate Hg|].
    split; split; try reflexivity.
    + intros _. exists f. right. now left.
    + intros _. left. now rewrite <- Hq.
Qed.

Lemma timers_match_flags_witness :
  reachable busyScreen /\ List.length (timers busyScreen) = 2.
Proof.
  split; [exact busyScreen_reachable|].
  exact (proj1 (timers_match_flags busyScreen busyScreen_reachable)).
Defined.

(* ================================================================== *)
(** ** What the rendered tree shows *)
(* ================================================================== *)

(** On a running screen the cartoons tell what is in flight: the robot
    bounces exactly while some timer is pending and has amber eyes
    exactly while a query is pending; the book shows its arms exactly
    while an upload is pending; the magnifying glass spins exactly while
    a query is pending. *)
Theorem cartoons_show_pending_work :
  forall r, reachable r ->
    let v := render (hooks r) in
    (robotBounce (viewRobot v) = true <-> timers r <> [])
    /\ (robotEyeFill (viewRobot v) = JsString.lit "#F59E0B"
        <-> count isAskTimer (timers r) = 1)
    /\ (bookArms (viewBook v) = true <-> count isUploadTimer (timers r) = 1)
    /\ (glassAnimation (viewGlass v) = JsString.lit "animate-spin"
        <-> count isAskTimer (timers r) = 1).
Proof.
  intros r R v. subst v. pose proof (reachable_Inv r R) as I.
  rewrite (inv_uploading r I), (inv_asking r I).
  unfold render. cbn [viewRobot viewBook viewGlass RobotAssistant
                        BookCharacter SearchMagnifyingGlass robotBounce
                        robotEyeFill bookArms glassAnimation].
  destruct (timers_shape r I)
    as [(E & U & K) | [(f & E & U & K) | [(q & E & U & K)
       | (f & q & [E|E] & U & K)]]];
    rewrite E, U, K; cbn;
    repeat split; intros; try reflexivity; try discriminate; congruence.
Qed.

Lemma cartoons_show_pending_work_witness :
  reachable busyScreen
  /\ (robotBounce (viewRobot (render (hooks busyScreen))) = true
      <-> timers busyScreen <> []).
Proof.
  split; [exact busyScreen_reachable|].
  exact (proj1 (cartoons_show_pending_work busyScreen busyScreen_reachable)).
Defined.

(** On a running screen the status banner, when there is one, is the
    green one and reads "PDF uploaded: " followed by the name of some
    file; while an upload is in flight there is no banner and the button
    carries the reading label. *)
Theorem banner_is_green_and_hidden_while_uploading :
  forall r, reachable r ->
    let v := render (hooks r) in
    (viewBanner v = None
     \/ exists f, viewBanner v = Some (mkBanner true (uploadedMessage f)))
    /\ (isUploading (hooks r) = true ->
        viewBanner v = None /\ viewUploadLabel v = readingLabel
        /\ viewUploadDisabled v = true /\ viewFileInputDisabled v = true).
Proof.
  intros r R v. subst v. destruct (reachable_Shown r R) as [_ _ Hs Hc].
  unfold render. cbn [viewBanner viewUploadLabel viewUploadDisabled
                        viewFileInputDisabled]. split.
  - destruct Hs as [-> | [f ->]]; [now left|]. right. now exists f.
  - intros U. rewrite (Hc U), U. rewrite orb_true_r. now repeat split.
Qed.

Lemma banner_is_green_and_hidden_while_uploading_witness :
  reachable busyScreen
  /\ isUploading (hooks busyScreen) = true
  /\ viewBanner (render (hooks busyScreen)) = None.
Proof.
  split; [exact busyScreen_reachable|]. split; [reflexivity|].
  apply (proj2 (banner_is_green_and_hidden_while_uploading
                  busyScreen busyScreen_reachable)).
  reflexivity.
Defined.

(** On a running screen the report section is absent, or shows the
    waiting animation, or shows the canned report of some question that
    is not blank; it shows the waiting animation exactly while a query is
    pending, whatever report was there before. *)
Theorem report_panel_is_canned :
  forall r, reachable r ->
    let v := render (hooks r) in
    (viewReport v = PanelAbsent
     \/ viewReport v = PanelWaiting
     \/ exists q, JsString.blank q = false
                  /\ JsString.includes q (reportFor q) = true
                  /\ viewReport v = PanelText (reportFor q))
    /\ (viewReport v = PanelWaiting <-> count isAskTimer (timers r) = 1).
Proof.
  intros r R v. subst v. destruct (reachable_Shown r R) as [_ Hr _ _].
  rewrite (inv_asking r (reachable_Inv r R)).
  unfold render. cbn [viewReport].
  destruct (isAsking (hooks r)).
  - rewrite orb_true_r. split; [right; now left|]. now split.
  - rewrite orb_false_r. destruct Hr as [-> | (q & B & ->)].
    + cbn [JsString.truthy flag]. split; [now left|]. split; discriminate.
    + rewrite reportFor_truthy. cbn [flag].
      split; [|split; discriminate]. right; right. exists q.
      repeat split; [assumption | apply includes_app].
Qed.

Lemma report_panel_is_canned_witness :
  reachable busyScreen
  /\ (viewReport (render (hooks busyScreen)) = PanelWaiting
      <-> count isAskTimer (timers busyScreen) = 1).
Proof.
  split; [exact busyScreen_reachable|].
  exact (proj2 (report_panel_is_canned busyScreen busyScreen_reachable)).
Defined.

(** The question cannot change while its query is pending, so a report
    that arrives quotes the question that is in the box at that moment. *)
Theorem arriving_report_quotes_question_in_box :
  forall r t r',
    reachable r -> step r (Expire t) r' -> isAskTimer t = true ->
    report (hooks r') = reportFor (question (hooks r'))
    /\ question (hooks r') = question (hooks r)
    /\ JsString.blank (question (hooks r')) = false
    /\ isAsking (hooks r') = false.
Proof.
  intros r t r' R S T. pose proof (reachable_Inv r R) as I.
  pose proof (shown_timers r (reachable_Shown r R)) as A.
  apply (step_Change r _ r' I) in S.
  inversion S as [| | | | | | | r0 f pre post E | r0 q pre post E]; subst.
  - discriminate T.
  - rewrite E in A. apply Forall_remove in A as [[[f Hf]|[Hq B]] _].
    + discriminate Hf.
    + apply askResume_timer_inj in Hq. subst q. now repeat split.
Qed.

Lemma arriving_report_quotes_question_in_box_witness :
  exists r',
    reachable busyScreen
    /\ step busyScreen (Expire (mkTimer 3000 (askResume sampleQuestion))) r'
    /\ report (hooks r') = reportFor (question (hooks r')).
Proof.
  eexists. split; [exact busyScreen_reachable|].
  assert (S : step busyScreen
                (Expire (mkTimer 3000 (askResume sampleQuestion)))
                (launch (askResume sampleQuestion)
                   {| hooks := hooks busyScreen;
                      timers := [mkTimer 2000 (uploadResume paperPdf)] ++ [] |}))
    by (apply step_expire; reflexivity).
  split; [exact S|].
  exact (proj1 (arriving_report_quotes_question_in_box _ _ _
                  busyScreen_reachable S eq_refl)).
Defined.

(* ================================================================== *)
(** ** How the operations compose *)
(* ================================================================== *)

(** With an upload and a query both in flight, the order in which the two
    timers fire does not matter: both orders end on the same screen, with
    no timer left and both flags cleared. *)
Theorem expiry_order_irrelevant :
  forall r, reachable r -> List.length (timers r) = 2 ->
    exists r',
      performAll r [Elapse 0; Elapse 0] = Some r'
      /\ performAll r [Elapse 1; Elapse 0] = Some r'
      /\ timers r' = []
      /\ isUploading (hooks r') = false /\ isAsking (hooks r') = false.
Proof.
  intros r R L. pose proof (reachable_Inv r R) as I.
  destruct (timers_shape r I)
    as [(E & _) | [(f & E & _) | [(q & E & _) | (f & q & [E|E] & _)]]];
    rewrite E in L; try discriminate L;
    destruct r as [s ts]; cbn [timers] in E; subst ts;
    eexists; repeat split; reflexivity.
Qed.

Lemma expiry_order_irrelevant_witness :
  reachable busyScreen /\ List.length (timers busyScreen) = 2
  /\ exists r',
       performAll busyScreen [Elapse 0; Elapse 0] = Some r'
       /\ performAll busyScreen [Elapse 1; Elapse 0] = Some r'
       /\ timers r' = []
       /\ isUploading (hooks r') = false /\ isAsking (hooks r') = false.
Proof.
  split; [exact busyScreen_reachable|]. split; [reflexivity|].
  exact (expiry_order_irrelevant busyScreen busyScreen_reachable eq_refl).
Defined.

(** Every running screen comes to rest: letting the pending timers fire,
    one after the other, empties the timer list and clears both busy
    flags, and touches neither the selected file, nor the question, nor
    the hover flag. *)
Theorem screen_comes_to_rest :
  forall r, reachable r ->
    exists r',
      performAll r (repeat (Elapse 0) (List.length (timers r))) = Some r'
      /\ timers r' = []
      /\ isUploading (hooks r') = false /\ isAsking (hooks r') = false
      /\ file (hooks r') = file (hooks r)
      /\ question (hooks r') = question (hooks r)
      /\ isDragging (hooks r') = isDragging (hooks r).
Proof.
  intros r R. pose proof (reachable_Inv r R) as I.
  destruct (timers_shape r I)
    as [(E & U & K) | [(f & E & U & K) | [(q & E & U & K)
       | (f & q & [E|E] & U & K)]]];
    destruct r as [s ts]; cbn [timers hooks] in *; subst ts;
    eexists; repeat split; try reflexivity; assumption.
Qed.

Lemma screen_comes_to_rest_witness :
  reachable busyScreen
  /\ exists r',
       performAll busyScreen
         (repeat (Elapse 0) (List.length (timers busyScreen))) = Some r'
       /\ timers r' = []
       /\ isUploading (hooks r') = false /\ isAsking (hooks r') = false
       /\ file (hooks r') = file (hooks busyScreen)
       /\ question (hooks r') = question (hooks busyScreen)
       /\ isDragging (hooks r') = isDragging (hooks busyScreen).
Proof.
  split; [exact busyScreen_reachable|].
  exact (screen_comes_to_rest busyScreen busyScreen_reachable).
Defined.

(** A click the upload button accepts always starts an upload of the
    selected file (the early return of line 15 is not taken), and until
    its timer fires the button and the file input accept nothing more. *)
Theorem accepted_upload_click_is_not_reentrant :
  forall r r',
    perform r (Occur UploadClick) = Some r' ->
    (exists f,
       file (hooks r) = Some f
       /\ r' = mkRuntime
                 (apply (setUploadStatus None)
                    (apply (setIsUploading true) (hooks r)))
                 (timers r ++ [mkTimer 2000 (uploadResume f)]))
    /\ perform r' (Occur UploadClick) = None
    /\ (forall files, perform r' (Occur (FileChange files)) = None).
Proof.
  intros r r' H. cbn [perform disabled handle] in H.
  destruct (file (hooks r)) as [f|] eqn:F; [|discriminate H].
  destruct (isUploading (hooks r)) eqn:U; [discriminate H|].
  cbn [orb] in H. rewrite (uploadFile_some _ _ F) in H.
  injection H as <-. split; [|split].
  - exists f. now split.
  - cbn. now rewrite F.
  - intros files. reflexivity.
Qed.

Lemma accepted_upload_click_is_not_reentrant_witness :
  perform chosenScreen (Occur UploadClick)
  = Some (mkRuntime
            (apply (setUploadStatus None)
               (apply (setIsUploading true) (hooks chosenScreen)))
            [mkTimer 2000 (uploadResume paperPdf)])
  /\ perform (mkRuntime
                (apply (setUploadStatus None)
                   (apply (setIsUploading true) (hooks chosenScreen)))
                [mkTimer 2000 (uploadResume paperPdf)])
       (Occur UploadClick) = None.
Proof.
  split; [reflexivity|].
  apply (accepted_upload_click_is_not_reentrant chosenScreen). reflexivity.
Defined.

(** The Enter key in the question box and the ask button: where the
    button is enabled, Enter does what a click does; Enter on a blank
    question and every other key change nothing; and once a query is
    accepted, the box takes no key and no edit and the button no click
    until the timer fires. *)
Theorem enter_key_acts_as_ask_button :
  forall r,
    (disabled (hooks r) AskClick = false ->
     perform r (Occur (QuestionKeyPress (JsString.lit "Enter")))
     = perform r (Occur AskClick)
     /\ exists r',
          perform r (Occur AskClick) = Some r'
          /\ isAsking (hooks r') = true
          /\ perform r' (Occur AskClick) = None
          /\ (forall key, perform r' (Occur (QuestionKeyPress key)) = None)
          /\ (forall v, perform r' (Occur (QuestionChange v)) = None))
    /\ (isAsking (hooks r) = false ->
        JsString.blank (question (hooks r)) = true ->
        perform r (Occur (QuestionKeyPress (JsString.lit "Enter")))
        = Some r)
    /\ (isAsking (hooks r) = false ->
        forall key, key <> JsString.lit "Enter" ->
                    perform r (Occur (QuestionKeyPress key)) = Some r).
Proof.
  intros r. split; [|split].
  - intros D. cbn [disabled] in D. apply orb_false_iff in D as [Dq A].
    rewrite truthy_trim in Dq. apply negb_false_iff, negb_true_iff in Dq.
    cbn [perform disabled handle]. rewrite truthy_trim, Dq, A.
    cbn [negb orb]. rewrite eqb_refl, (askQuestion_text _ Dq).
    split; [reflexivity|]. eexists. split; [reflexivity|].
    cbn. rewrite orb_true_r. repeat split.
  - intros A B. cbn [perform disabled handle]. rewrite A, eqb_refl.
    rewrite (askQuestion_blank _ B). now destruct r.
  - intros A key N. cbn [perform disabled handle]. rewrite A.
    apply (proj2 (eqb_neq _ _)) in N. rewrite N. now destruct r.
Qed.

Lemma enter_key_acts_as_ask_button_witness :
  (disabled (hooks (mkRuntime (withQuestion sampleQuestion) [])) AskClick
   = false
   /\ perform (mkRuntime (withQuestion sampleQuestion) [])
        (Occur (QuestionKeyPress (JsString.lit "Enter")))
      = perform (mkRuntime (withQuestion sampleQuestion) []) (Occur AskClick))
  /\ (isAsking (hooks (mkRuntime (withQuestion spaces) [])) = false
      /\ JsString.blank (question (hooks (mkRuntime (withQuestion spaces) [])))
         = true
      /\ perform (mkRuntime (withQuestion spaces) [])
           (Occur (QuestionKeyPress (JsString.lit "Enter")))
         = Some (mkRuntime (withQuestion spaces) [])).
Proof.
  split.
  - split; [reflexivity|].
    destruct (enter_key_acts_as_ask_button
                (mkRuntime (withQuestion sampleQuestion) [])) as [H _].
    exact (proj1 (H eq_refl)).
  - split; [reflexivity|]. split; [reflexivity|].
    destruct (enter_key_acts_as_ask_button
                (mkRuntime (withQuestion spaces) [])) as (_ & H & _).
    exact (H eq_refl eq_refl).
Defined.

(* ================================================================== *)
(** ** What the simulations leave alone, and their failure paths *)
(* ================================================================== *)

(** The two simulations write disjoint cells.  Run from the closure of
    any render [s] on any cells [s0], [uploadFile] writes nothing but
    [isUploading] and [uploadStatus], and [askQuestion] nothing but
    [isAsking] and [report]. *)
Theorem simulations_write_disjoint_cells :
  forall s s0,
    (let s' := run (effects (uploadFile s)) s0 in
     file s' = file s0 /\ question s' = question s0
     /\ report s' = report s0 /\ isAsking s' = isAsking s0
     /\ isDragging s' = isDragging s0)
    /\ (let s' := run (effects (askQuestion s)) s0 in
        file s' = file s0 /\ question s' = question s0
        /\ uploadStatus s' = uploadStatus s0
        /\ isUploading s' = isUploading s0
        /\ isDragging s' = isDragging s0).
Proof.
  intros s s0. split.
  - destruct (file s) as [f|] eqn:F.
    + rewrite (uploadFile_some s f F). now repeat split.
    + rewrite (uploadFile_none s F). now repeat split.
  - destruct (JsString.blank (question s)) eqn:B.
    + rewrite (askQuestion_blank s B). now repeat split.
    + rewrite (askQuestion_text s B). now repeat split.
Qed.

(** The [try] statements of lines 19-27 and 34-42, whatever the awaited
    promise does.  [uploadFile] and [askQuestion] are the instances that
    await the 2000 ms and the 3000 ms timer.  Fulfilled or rejected, the
    function does not throw and the [finally] block clears the busy
    flag; a fulfilled promise stores the success outcome, or the report,
    and a rejected one the failure outcome, or the failure text. *)
Theorem finally_clears_busy_flag :
  forall p f q s0,
    (forall s, file s = Some f ->
               uploadFile s = uploadAwaiting (timeoutPromise 2000) f)
    /\ (forall s, JsString.blank (question s) = false ->
                  askQuestion s = askAwaiting (timeoutPromise 3000) (question s))
    /\ (let m := uploadAwaiting p f in
        let s' := run (effects m) s0 in
        completion m = inr tt
        /\ isUploading s' = false
        /\ uploadStatus s'
           = Some match settles p with
                  | Fulfilled => uploaded f
                  | Rejected _ =>
                      UploadStatus.mk UploadStatus.error uploadFailedMessage
                  end)
    /\ (let m := askAwaiting p q in
        let s' := run (effects m) s0 in
        completion m = inr tt
        /\ isAsking s' = false
        /\ report s'
           = match settles p with
             | Fulfilled => reportFor q
             | Rejected _ => askFailedMessage
             end).
Proof.
  intros p f q s0. split; [|split; [|split]].
  - intros s F. now rewrite (uploadFile_some s f F).
  - intros s B. now rewrite (askQuestion_text s B).
  - destruct p as [ms [|e]]; now repeat split.
  - destruct p as [ms [|e]]; now repeat split.
Qed.

Lemma finally_clears_busy_flag_witness :
  file (withFile paperPdf) = Some paperPdf
  /\ uploadFile (withFile paperPdf)
     = uploadAwaiting (timeoutPromise 2000) paperPdf.
Proof.
  split; [reflexivity|].
  destruct (finally_clears_busy_flag (timeoutPromise 2000) paperPdf
              sampleQuestion initialState) as [H _].
  exact (H (withFile paperPdf) eq_refl).
Defined.

(** The file input checks no type: whatever file is chosen there, PDF or
    not, the upload goes through and the banner announces it as an
    uploaded PDF under its own name. *)
Theorem file_input_accepts_any_type :
  forall f,
    exists r,
      performAll initialRuntime
        [Occur (FileChange [f]); Occur UploadClick; Elapse 0] = Some r
      /\ reachable r
      /\ file (hooks r) = Some f
      /\ viewBanner (render (hooks r))
         = Some (mkBanner true
                   (JsString.lit "PDF uploaded: " ++ File.name f)%list)
      /\ timers r = [].
Proof.
  intros f. eexists.
  assert (P : performAll initialRuntime
                [Occur (FileChange [f]); Occur UploadClick; Elapse 0]
              = Some (mkRuntime
                        (apply (setUploadStatus (Some (uploaded f)))
                           (withFile f)) []))
    by reflexivity.
  split; [exact P|]. split.
  - exact (performAll_reachable _ _ _ reach_init P).
  - now repeat split.
Qed.

(** The drop zone stays live during an upload, although the file input
    is disabled: a PDF [g] dropped while the upload of [f] is in flight
    replaces the selected file, and the banner that follows still names
    [f]. *)
Theorem outcome_may_name_replaced_file :
  forall f g, File.type g = pdfType ->
    exists r,
      performAll initialRuntime
        [Occur (FileChange [f]); Occur UploadClick; Occur (Drop [g]);
         Elapse 0] = Some r
      /\ reachable r
      /\ file (hooks r) = Some g
      /\ uploadStatus (hooks r) = Some (uploaded f)
      /\ perform (mkRuntime (apply (setIsUploading true) (withFile f))
                    [mkTimer 2000 (uploadResume f)])
           (Occur (FileChange [g])) = None.
Proof.
  intros f g G.
  assert (P : performAll initialRuntime
                [Occur (FileChange [f]); Occur UploadClick; Occur (Drop [g]);
                 Elapse 0]
              = Some (mkRuntime
                        (apply (setUploadStatus (Some (uploaded f)))
                           (withFile g)) [])).
  { cbn [performAll perform disabled handle hooks initialRuntime].
    cbn [effects fst launch runSync hooks timers app].
    cbn [initialState apply file isUploading orb effects fst].
    rewrite (handleDrop_pdf g [] G). reflexivity. }
  eexists. split; [exact P|]. split.
  - exact (performAll_reachable _ _ _ reach_init P).
  - now repeat split.
Qed.

Lemma outcome_may_name_replaced_file_witness :
  File.type paperPdf = pdfType
  /\ exists r,
       performAll initialRuntime
         [Occur (FileChange [notesTxt]); Occur UploadClick;
          Occur (Drop [paperPdf]); Elapse 0] = Some r
       /\ reachable r
       /\ file (hooks r) = Some paperPdf
       /\ uploadStatus (hooks r) = Some (uploaded notesTxt)
       /\ perform (mkRuntime (apply (setIsUploading true) (withFile notesTxt))
                     [mkTimer 2000 (uploadResume notesTxt)])
            (Occur (FileChange [paperPdf])) = None.
Proof.
  split; [reflexivity|].
  exact (outcome_may_name_replaced_file notesTxt paperPdf eq_refl).
Defined.

(** What is shown can be read back: the report determines the question
    it answers, and the banner text determines the name of the uploaded
    file. *)
Theorem messages_determine_their_subject :
  forall q q' f f',
    (reportFor q = reportFor q' <-> q = q')
    /\ (uploadedMessage f = uploadedMessage f' <-> File.name f = File.name f').
Proof.
  intros q q' f f'. split; split.
  - apply reportFor_inj.
  - now intros ->.
  - unfold uploadedMessage. apply app_inv_head.
  - unfold uploadedMessage. now intros ->.
Qed.

Lemma messages_determine_their_subject_witness :
  reportFor sampleQuestion = reportFor sampleQuestion
  /\ File.name paperPdf = File.name paperPdf
  /\ uploadedMessage paperPdf = uploadedMessage paperPdf.
Proof.
  split; [reflexivity|]. split; [reflexivity|].
  exact (proj2 (proj2 (messages_determine_their_subject
                         sampleQuestion sampleQuestion paperPdf paperPdf))
           eq_refl).
Defined.
